(** * minesim: mass balance, economics and grid search of the simulator

    A shallow embedding of the calculation handlers of [App.tsx]
    ([calculateBalance], [calculateEconomics], [optimizeParameters],
    [loadExample]) and of the [EconomicAnalysis] component
    ([calculateEconomics]), with the properties of the specification that
    concern them.

    The handlers are React event handlers over [useState] cells.  A handler is
    embedded as a function on the record of the cells it reads and writes; a
    call [setX v] is the record update of the cell [X], and an early [return]
    is the branch that ends there.

    A JavaScript [number] is an IEEE-754 binary64 value.  The handlers are
    written once, over an interface of the operations they use ([JsNumber]),
    and read at two carriers:
    - [Exact.xnum]: the rationals with the special values NaN, +Infinity and
      -Infinity.  Finite arithmetic is exact (no rounding, no overflow, one
      unsigned zero); division by zero and the propagation of the special
      values follow IEEE-754.  The general theorems are proved at this carrier.
    - [float]: the kernel's binary64 numbers, on which a handler evaluates to
      the very bits a JavaScript engine produces.  It is used to evaluate the
      handlers at concrete inputs.  [Math.pow], which an engine only
      approximates, is given at the exact carrier alone, so that the handler
      that discounts cash flows is read there. *)

From Stdlib Require Import ZArith QArith Qround Qabs Qminmax Qpower Lqa Lia.
From Stdlib Require Import List String Bool.
From Stdlib Require Import PrimFloat FloatOps SpecFloat Uint63.
From Stdlib Require DecimalString DecimalN DecimalPos.
Import ListNotations.

Set Warnings "-inexact-float".
Local Open Scope string_scope.
Local Open Scope list_scope.

(** ** The operations on numbers the handlers use *)

Class JsNumber (N : Type) : Type := {
  num_of_Z : Z -> N;            (* an integer literal *)
  num_neg : N -> N;             (* -a *)
  num_add : N -> N -> N;        (* a + b *)
  num_sub : N -> N -> N;        (* a - b *)
  num_mul : N -> N -> N;        (* a * b *)
  num_div : N -> N -> N;        (* a / b *)
  num_lt : N -> N -> bool;      (* a < b *)
  num_le : N -> N -> bool;      (* a <= b *)
  num_falsy : N -> bool;        (* !a : a is 0 or NaN *)
  num_min : N -> N -> N         (* Math.min(a, b) *)
}.

(** [Math.pow(a, b)] *)
Class JsPow (N : Type) : Type := {
  num_pow : N -> N -> N
}.

(** [a.toFixed(digits)] *)
Class JsFixed (N : Type) : Type := {
  num_toFixed : N -> nat -> string
}.

Declare Scope js_scope.
Delimit Scope js_scope with js.
Infix "+" := num_add : js_scope.
Infix "-" := num_sub : js_scope.
Infix "*" := num_mul : js_scope.
Infix "/" := num_div : js_scope.
Infix "<?" := num_lt : js_scope.
Infix "<=?" := num_le : js_scope.
Notation "a >? b" := (num_lt b a) (at level 70) : js_scope.
Notation "'!' a" := (num_falsy a) (at level 35, right associativity) : js_scope.

(** A decimal literal [m / 10^e], such as [0.1] or [35.5].  Both [m] and
    [10^e] are small integers, and the quotient of two binary64 integers is
    rounded correctly, so that at [float] this is the literal's value. *)
Definition num_lit {N} `{JsNumber N} (m : Z) (e : nat) : N :=
  match e with
  | O => num_of_Z m
  | _ => (num_of_Z m / num_of_Z (10 ^ Z.of_nat e))%js
  end.

(** ** Decimal notation

    The decimal digits of [toFixed]: the integer [n] nearest to
    [|q| * 10^digits] (the larger one on a tie), written with a decimal point
    before its last [digits] digits, after the sign of a negative [q].  (From
    10^21 on JavaScript switches to exponent notation, which is not followed
    here.) *)
Definition digits_of_Z (n : Z) : string :=
  DecimalString.NilZero.string_of_uint (N.to_uint (Z.to_N n)).

Fixpoint pad_left (fuel width : nat) (s : string) : string :=
  match fuel with
  | O => s
  | S fuel' =>
      if Nat.ltb (String.length s) width
      then pad_left fuel' width ("0" ++ s)%string else s
  end.

Definition fixed_of_Q (q : Q) (digits : nat) : string :=
  let scaled := Qfloor (Qabs q * inject_Z (10 ^ Z.of_nat digits) + (1 # 2)) in
  let ds := pad_left (S digits) (S digits) (digits_of_Z scaled) in
  let k := (String.length ds - digits)%nat in
  let body :=
    match digits with
    | O => ds
    | _ => (substring 0 k ds ++ "." ++ substring k digits ds)%string
    end in
  if negb (Qle_bool 0 q) then ("-" ++ body)%string else body.

(** ** Exact numbers with the IEEE special values *)

Module Exact.

Inductive xnum : Type :=
| XNaN
| XInf (neg : bool)
| XFin (q : Q).

Definition Qneg_b (q : Q) : bool := negb (Qle_bool 0 q).
Definition Qzero_b (q : Q) : bool := Qeq_bool q 0.

Definition xof_Z (z : Z) : xnum := XFin (inject_Z z).

Definition xneg (a : xnum) : xnum :=
  match a with
  | XNaN => XNaN
  | XInf s => XInf (negb s)
  | XFin q => XFin (Qred (- q))
  end.

Definition xadd (a b : xnum) : xnum :=
  match a, b with
  | XNaN, _ | _, XNaN => XNaN
  | XInf s, XInf s' => if Bool.eqb s s' then XInf s else XNaN
  | XInf s, XFin _ | XFin _, XInf s => XInf s
  | XFin p, XFin q => XFin (Qred (p + q))
  end.

Definition xsub (a b : xnum) : xnum :=
  match a, b with
  | XNaN, _ | _, XNaN => XNaN
  | XInf s, XInf s' => if Bool.eqb s s' then XNaN else XInf s
  | XInf s, XFin _ => XInf s
  | XFin _, XInf s => XInf (negb s)
  | XFin p, XFin q => XFin (Qred (p - q))
  end.

Definition xmul (a b : xnum) : xnum :=
  match a, b with
  | XNaN, _ | _, XNaN => XNaN
  | XInf s, XInf s' => XInf (xorb s s')
  | XInf s, XFin q | XFin q, XInf s =>
      if Qzero_b q then XNaN else XInf (xorb s (Qneg_b q))
  | XFin p, XFin q => XFin (Qred (p * q))
  end.

Definition xdiv (a b : xnum) : xnum :=
  match a, b with
  | XNaN, _ | _, XNaN => XNaN
  | XInf _, XInf _ => XNaN
  | XInf s, XFin q => XInf (xorb s (Qneg_b q))
  | XFin _, XInf _ => XFin 0
  | XFin p, XFin q =>
      if Qzero_b q
      then (if Qzero_b p then XNaN else XInf (Qneg_b p))
      else XFin (Qred (p / q))
  end.

Definition xlt (a b : xnum) : bool :=
  match a, b with
  | XNaN, _ | _, XNaN => false
  | XInf s, XInf s' => s && negb s'
  | XInf s, XFin _ => s
  | XFin _, XInf s => negb s
  | XFin p, XFin q => negb (Qle_bool q p)
  end.

Definition xle (a b : xnum) : bool :=
  match a, b with
  | XNaN, _ | _, XNaN => false
  | XInf s, XInf s' => s || negb s'
  | XInf s, XFin _ => s
  | XFin _, XInf s => negb s
  | XFin p, XFin q => Qle_bool p q
  end.

Definition xfalsy (a : xnum) : bool :=
  match a with
  | XNaN => true
  | XInf _ => false
  | XFin q => Qzero_b q
  end.

Definition xmin (a b : xnum) : xnum :=
  match a, b with
  | XNaN, _ | _, XNaN => XNaN
  | _, _ => if xlt b a then b else a
  end.

#[export] Instance xnum_number : JsNumber xnum := {
  num_of_Z := xof_Z;
  num_neg := xneg;
  num_add := xadd;
  num_sub := xsub;
  num_mul := xmul;
  num_div := xdiv;
  num_lt := xlt;
  num_le := xle;
  num_falsy := xfalsy;
  num_min := xmin
}.

(** [Math.pow(a, b)] for an exponent that is an integer, which is how the
    handlers call it (the exponent is a loop counter).  A fractional or
    infinite exponent has no exact value in general and yields NaN here. *)
Definition xpow (a b : xnum) : xnum :=
  match b with
  | XFin q =>
      let n := Qfloor q in
      if negb (Qeq_bool (inject_Z n) q) then XNaN
      else if (n =? 0)%Z then XFin 1
      else match a with
           | XNaN => XNaN
           | XInf s => if (n <? 0)%Z then XFin 0 else XInf (s && Z.odd n)
           | XFin p =>
               if Qzero_b p && (n <? 0)%Z then XInf false
               else XFin (Qred (Qpower p n))
           end
  | _ => XNaN
  end.

Definition xtoFixed (a : xnum) (digits : nat) : string :=
  match a with
  | XNaN => "NaN"
  | XInf s => if s then "-Infinity" else "Infinity"
  | XFin q => fixed_of_Q q digits
  end.

#[export] Instance xnum_pow : JsPow xnum := { num_pow := xpow }.
#[export] Instance xnum_fixed : JsFixed xnum := { num_toFixed := xtoFixed }.

(** Equality of numbers as values: [Qeq] on the finite ones. *)
Definition xeq (a b : xnum) : Prop :=
  match a, b with
  | XNaN, XNaN => True
  | XInf s, XInf s' => s = s'
  | XFin p, XFin q => p == q
  | _, _ => False
  end.

Definition xfinite (a : xnum) : bool :=
  match a with XFin _ => true | _ => false end.

(** The finite number written [m / 10^e] in decimal. *)
Definition dec (m : Z) (e : nat) : xnum := XFin (Qred (m # Pos.of_nat (10 ^ e))).

End Exact.

(** ** binary64 *)

Module Binary64.

Definition fof_Z (z : Z) : float :=
  match z with
  | Z0 => PrimFloat.zero
  | Zpos _ => PrimFloat.of_uint63 (Uint63.of_Z z)
  | Zneg p => PrimFloat.opp (PrimFloat.of_uint63 (Uint63.of_Z (Zpos p)))
  end.

Definition ffalsy (a : float) : bool :=
  PrimFloat.is_zero a || PrimFloat.is_nan a.

Definition fmin (a b : float) : float :=
  if PrimFloat.is_nan a || PrimFloat.is_nan b then PrimFloat.nan
  else if PrimFloat.ltb b a then b
  else if PrimFloat.ltb a b then a
  else if PrimFloat.get_sign a then a else b.

#[export] Instance float_number : JsNumber float := {
  num_of_Z := fof_Z;
  num_neg := PrimFloat.opp;
  num_add := PrimFloat.add;
  num_sub := PrimFloat.sub;
  num_mul := PrimFloat.mul;
  num_div := PrimFloat.div;
  num_lt := PrimFloat.ltb;
  num_le := PrimFloat.leb;
  num_falsy := ffalsy;
  num_min := fmin
}.

(** The rational a finite binary64 number stands for. *)
Definition Q_of_float (a : float) : Q :=
  match Prim2SF a with
  | S754_finite s m e =>
      Qred ((if s then -1 else 1) * inject_Z (Zpos m) * Qpower 2 e)
  | _ => 0
  end.

Definition ftoFixed (a : float) (digits : nat) : string :=
  if PrimFloat.is_nan a then "NaN"
  else if PrimFloat.is_infinity a
       then (if PrimFloat.get_sign a then "-Infinity" else "Infinity")
       else fixed_of_Q (Q_of_float a) digits.

#[export] Instance float_fixed : JsFixed float := { num_toFixed := ftoFixed }.

End Binary64.

(** ** Data model ([App.tsx], interfaces) *)

Section DataModel.

Context {N : Type}.

Record StreamData : Type := {
  vazao : N;
  concentracao : N;
  densidade : N
}.

(** The fields [alimentacao], [concentrado] and [rejeito] of the interface
    carry the prefix [res_]: the state cells below bear the same names. *)
Record BalanceResults : Type := {
  res_alimentacao : StreamData;
  res_concentrado : StreamData;
  res_rejeito : StreamData;
  recuperacao : N;
  razaoConcentracao : N;
  eficienciaSeparacao : N
}.

Record EconomicData : Type := {
  capex : N;
  opexAnual : N;
  receita : N;
  vidaUtil : N;
  taxaDesconto : N;
  custoEnergia : N;
  custoMaodeObra : N;
  custoManutencao : N
}.

Record EconomicResults : Type := {
  vpl : N;
  tir : N;
  payback : N;
  roi : N;
  custoTonelada : N
}.

Record OptimizationParams : Type := {
  targetRecovery : N;
  maxDensity : N;
  minGrade : N;
  energyLimit : N
}.

(** The [useState] cells of [App] that the calculation handlers touch. *)
Record AppState : Type := {
  alimentacao : StreamData;
  concentrado : StreamData;
  rejeito : StreamData;
  results : option BalanceResults;
  errors : list string;
  economicData : EconomicData;
  economicResults : option EconomicResults;
  optimizationParams : OptimizationParams;
  simulationHistory : list BalanceResults;
  circuitType : string
}.

Definition setAlimentacao (v : StreamData) (st : AppState) : AppState :=
  {| alimentacao := v; concentrado := concentrado st; rejeito := rejeito st;
     results := results st; errors := errors st;
     economicData := economicData st; economicResults := economicResults st;
     optimizationParams := optimizationParams st;
     simulationHistory := simulationHistory st; circuitType := circuitType st |}.

Definition setConcentrado (v : StreamData) (st : AppState) : AppState :=
  {| alimentacao := alimentacao st; concentrado := v; rejeito := rejeito st;
     results := results st; errors := errors st;
     economicData := economicData st; economicResults := economicResults st;
     optimizationParams := optimizationParams st;
     simulationHistory := simulationHistory st; circuitType := circuitType st |}.

Definition setRejeito (v : StreamData) (st : AppState) : AppState :=
  {| alimentacao := alimentacao st; concentrado := concentrado st; rejeito := v;
     results := results st; errors := errors st;
     economicData := economicData st; economicResults := economicResults st;
     optimizationParams := optimizationParams st;
     simulationHistory := simulationHistory st; circuitType := circuitType st |}.

Definition setResults (v : option BalanceResults) (st : AppState) : AppState :=
  {| alimentacao := alimentacao st; concentrado := concentrado st;
     rejeito := rejeito st; results := v; errors := errors st;
     economicData := economicData st; economicResults := economicResults st;
     optimizationParams := optimizationParams st;
     simulationHistory := simulationHistory st; circuitType := circuitType st |}.

Definition setErrors (v : list string) (st : AppState) : AppState :=
  {| alimentacao := alimentacao st; concentrado := concentrado st;
     rejeito := rejeito st; results := results st; errors := v;
     economicData := economicData st; economicResults := economicResults st;
     optimizationParams := optimizationParams st;
     simulationHistory := simulationHistory st; circuitType := circuitType st |}.

Definition setEconomicResults (v : option EconomicResults) (st : AppState)
  : AppState :=
  {| alimentacao := alimentacao st; concentrado := concentrado st;
     rejeito := rejeito st; results := results st; errors := errors st;
     economicData := economicData st; economicResults := v;
     optimizationParams := optimizationParams st;
     simulationHistory := simulationHistory st; circuitType := circuitType st |}.

Definition setCircuitType (v : string) (st : AppState) : AppState :=
  {| alimentacao := alimentacao st; concentrado := concentrado st;
     rejeito := rejeito st; results := results st; errors := errors st;
     economicData := economicData st; economicResults := economicResults st;
     optimizationParams := optimizationParams st;
     simulationHistory := simulationHistory st; circuitType := v |}.

(** [setSimulationHistory(prev => f(prev))]: the functional update. *)
Definition setSimulationHistory
  (f : list BalanceResults -> list BalanceResults) (st : AppState) : AppState :=
  {| alimentacao := alimentacao st; concentrado := concentrado st;
     rejeito := rejeito st; results := results st; errors := errors st;
     economicData := economicData st; economicResults := economicResults st;
     optimizationParams := optimizationParams st;
     simulationHistory := f (simulationHistory st);
     circuitType := circuitType st |}.

End DataModel.

Arguments StreamData : clear implicits.
Arguments BalanceResults : clear implicits.
Arguments EconomicData : clear implicits.
Arguments EconomicResults : clear implicits.
Arguments OptimizationParams : clear implicits.
Arguments AppState : clear implicits.

(** [Array.prototype.slice(-k)]: the last [k] elements, all of them when the
    array has at most [k]. *)
Definition slice_last {A} (k : nat) (l : list A) : list A :=
  skipn (List.length l - k) l.

(** ** Loops

    [for (let i = init; cond(i); i = incr(i)) body], whose body may [break].
    The counter is a number, so the loop is run on fuel: [None] is a loop that
    has not ended when the fuel runs out (or whose body has not). *)

Inductive flow (S : Type) : Type :=
| Continue (s : S)
| Break (s : S).
Arguments Continue {S} s.
Arguments Break {S} s.

Fixpoint for_loop {N S : Type} (fuel : nat) (cond : N -> bool) (incr : N -> N)
  (body : N -> S -> option (flow S)) (i : N) (s : S) : option S :=
  match fuel with
  | O => None
  | S fuel' =>
      if cond i then
        match body i s with
        | Some (Continue s') => for_loop fuel' cond incr body (incr i) s'
        | Some (Break s') => Some s'
        | None => None
        end
      else Some s
  end.

(** The values the counter takes until [cond] fails. *)
Fixpoint counters {N : Type} (fuel : nat) (cond : N -> bool) (incr : N -> N)
  (i : N) : option (list N) :=
  match fuel with
  | O => None
  | S fuel' =>
      if cond i then option_map (cons i) (counters fuel' cond incr (incr i))
      else Some []
  end.

(** The body run over given counter values. *)
Fixpoint run_body {N S : Type} (body : N -> S -> option (flow S))
  (l : list N) (s : S) : option S :=
  match l with
  | [] => Some s
  | i :: l' =>
      match body i s with
      | Some (Continue s') => run_body body l' s'
      | Some (Break s') => Some s'
      | None => None
      end
  end.

(** ** The handlers of [App.tsx] *)

Module App.

Section Handlers.

Context {N : Type} `{JsNumber N}.
Local Open Scope js_scope.

Local Notation "0" := (num_of_Z 0%Z) : js_scope.
Local Notation "1" := (num_of_Z 1%Z) : js_scope.
Local Notation "2" := (num_of_Z 2%Z) : js_scope.
Local Notation "5" := (num_of_Z 5%Z) : js_scope.
Local Notation "10" := (num_of_Z 10%Z) : js_scope.
Local Notation "40" := (num_of_Z 40%Z) : js_scope.
Local Notation "100" := (num_of_Z 100%Z) : js_scope.
Local Notation "1000" := (num_of_Z 1000%Z) : js_scope.
Local Notation "8760" := (num_of_Z 8760%Z) : js_scope.

(** How a run of [calculateBalance] ends: at one of its two early returns,
    with the messages it passes to [setErrors], or with [newResults]. *)
Inductive outcome : Type :=
| Rejected (newErrors : list string)
| Solved (newResults : BalanceResults N).

(** [if (b) newErrors.push(msg)] *)
Definition push_if (b : bool) (msg : string) (newErrors : list string)
  : list string :=
  if b then newErrors ++ [msg] else newErrors.

Definition nonPhysical : string :=
  "Dados inconsistentes - resultados não físicos".

(** The body of [calculateBalance] up to its calls of the setters. *)
Definition balance (alimentacao concentrado rejeito : StreamData N) : outcome :=
  let newErrors := [] in
  let newErrors :=
    push_if ((! vazao alimentacao) || (! concentracao alimentacao)
             || (! densidade alimentacao))
            "Dados de alimentação incompletos" newErrors in
  let newErrors :=
    push_if ((! concentracao concentrado) || (! densidade concentrado))
            "Dados de concentrado incompletos" newErrors in
  let newErrors :=
    push_if ((! concentracao rejeito) || (! densidade rejeito))
            "Dados de rejeito incompletos" newErrors in
  if (0 <? List.length newErrors)%nat then Rejected newErrors
  else
    let F := vazao alimentacao in
    let f := concentracao alimentacao in
    let c := concentracao concentrado in
    let t := concentracao rejeito in
    let C := (F * (f - t)) / (c - t) in
    let T := F - C in
    if (C <? 0) || (T <? 0)
    then Rejected [nonPhysical]
    else
      let recuperacao := (C * c) / (F * f) * 100 in
      let razaoConcentracao := c / f in
      let eficienciaSeparacao := recuperacao * (c - f) / (c * (100 - f)) in
      Solved
        {| res_alimentacao := alimentacao;
           res_concentrado :=
             {| vazao := C; concentracao := c;
                densidade := densidade concentrado |};
           res_rejeito :=
             {| vazao := T; concentracao := t;
                densidade := densidade rejeito |};
           recuperacao := recuperacao;
           razaoConcentracao := razaoConcentracao;
           eficienciaSeparacao := eficienciaSeparacao |}.

Definition calculateBalance (st : AppState N) : AppState N :=
  match balance (alimentacao st) (concentrado st) (rejeito st) with
  | Rejected newErrors => setErrors newErrors st
  | Solved newResults =>
      setSimulationHistory
        (fun prev => slice_last 20 (prev ++ [newResults]))
        (setErrors [] (setResults (Some newResults) st))
  end.

(** The three validations of [calculateBalance] all pass. *)
Definition inputsComplete (st : AppState N) : bool :=
  negb ((! vazao (alimentacao st)) || (! concentracao (alimentacao st))
        || (! densidade (alimentacao st)))
  && negb ((! concentracao (concentrado st)) || (! densidade (concentrado st)))
  && negb ((! concentracao (rejeito st)) || (! densidade (rejeito st))).

(** The flow rates [C] and [T] that [calculateBalance] solves for. *)
Definition solvedC (st : AppState N) : N :=
  (vazao (alimentacao st)
   * (concentracao (alimentacao st) - concentracao (rejeito st)))
  / (concentracao (concentrado st) - concentracao (rejeito st)).

Definition solvedT (st : AppState N) : N :=
  vazao (alimentacao st) - solvedC st.

(** A session: [calculateBalance] run again and again, with anything that
    leaves the history alone in between (the other handlers and the input
    fields do; [calculateBalance] is the only caller of
    [setSimulationHistory]).  [session st solved st'] collects, in order, the
    [newResults] of the runs that reached the end. *)
Inductive session : AppState N -> list (BalanceResults N) -> AppState N -> Prop :=
| session_end st : session st [] st
| session_other st st1 solved st' :
    simulationHistory st1 = simulationHistory st ->
    session st1 solved st' ->
    session st solved st'
| session_solved st newResults solved st' :
    balance (alimentacao st) (concentrado st) (rejeito st) = Solved newResults ->
    session (calculateBalance st) solved st' ->
    session st (newResults :: solved) st'
| session_rejected st newErrors solved st' :
    balance (alimentacao st) (concentrado st) (rejeito st) = Rejected newErrors ->
    session (calculateBalance st) solved st' ->
    session st solved st'.

Definition loadExample (type : string) (st : AppState N) : AppState N :=
  let st :=
    if String.eqb type "iron-ore" then
      setCircuitType "flotation"
        (setRejeito {| vazao := 0; concentracao := num_lit 85 1;
                       densidade := num_lit 29 1 |}
        (setConcentrado {| vazao := 0; concentracao := num_lit 682 1;
                           densidade := num_lit 48 1 |}
        (setAlimentacao {| vazao := 100; concentracao := num_lit 355 1;
                           densidade := num_lit 38 1 |} st)))
    else if String.eqb type "copper" then
      setCircuitType "flotation"
        (setRejeito {| vazao := 0; concentracao := num_lit 12 2;
                       densidade := num_lit 26 1 |}
        (setConcentrado {| vazao := 0; concentracao := num_lit 285 1;
                           densidade := num_lit 32 1 |}
        (setAlimentacao {| vazao := num_of_Z 50; concentracao := num_lit 85 2;
                           densidade := num_lit 27 1 |} st)))
    else if String.eqb type "coal" then
      setCircuitType "grinding"
        (setRejeito {| vazao := 0; concentracao := num_lit 685 1;
                       densidade := num_lit 21 1 |}
        (setConcentrado {| vazao := 0; concentracao := num_lit 52 1;
                           densidade := num_lit 13 1 |}
        (setAlimentacao {| vazao := num_of_Z 200; concentracao := num_lit 258 1;
                           densidade := num_lit 16 1 |} st)))
    else st in
  setErrors [] (setResults None st).

Definition resetForm (st : AppState N) : AppState N :=
  let zero := {| vazao := 0; concentracao := 0; densidade := 0 |} in
  setErrors [] (setResults None
    (setRejeito zero (setConcentrado zero (setAlimentacao zero st)))).

Context `{JsPow N}.

(** The loop of [calculateEconomics] that discounts the annual cash flow at
    [taxa] percent; it stands twice in the handler, for [vpl] at the discount
    rate and for [vplTeste] at each candidate rate. *)
Definition vplAt (fuel : nat) (economicData : EconomicData N)
  (fluxoCaixaAnual taxa : N) : option N :=
  for_loop fuel
    (fun ano => ano <=? vidaUtil economicData)
    (fun ano => ano + 1)
    (fun ano vpl =>
       Some (Continue (vpl + fluxoCaixaAnual / num_pow (1 + taxa / 100) ano)))
    1 (num_neg (capex economicData)).

(** [receitaAnual], [custoOperacional] and [fluxoCaixaAnual] of
    [calculateEconomics]. *)
Definition receitaAnualOf (results : BalanceResults N)
  (economicData : EconomicData N) : N :=
  vazao (res_concentrado results) * 8760 * receita economicData / 1000.

Definition custoOperacionalOf (results : BalanceResults N)
  (economicData : EconomicData N) : N :=
  opexAnual economicData
  + (vazao (res_alimentacao results) * 8760 * custoEnergia economicData)
  + custoMaodeObra economicData + custoManutencao economicData.

Definition fluxoCaixaAnualOf (results : BalanceResults N)
  (economicData : EconomicData N) : N :=
  receitaAnualOf results economicData - custoOperacionalOf results economicData.

(** The search for [tir]: the loop over [taxa] with its [break]. *)
Definition tirLoop (fuel : nat) (economicData : EconomicData N)
  (fluxoCaixaAnual : N) : option N :=
  for_loop fuel
    (fun taxa => taxa <=? 100)
    (fun taxa => taxa + num_lit 1 1)
    (fun taxa tir =>
       match vplAt fuel economicData fluxoCaixaAnual taxa with
       | None => None
       | Some vplTeste =>
           if vplTeste <=? 0
           then Some (Break (taxa - num_lit 1 1))
           else Some (Continue tir)
       end)
    1 0.

Definition missingEconomics : string :=
  "Execute uma simulação e preencha os dados econômicos antes de calcular".

(** The guard of [calculateEconomics]:
    [!results || !economicData.capex || !economicData.opexAnual]. *)
Definition economicsMissing (st : AppState N) : bool :=
  match results st with
  | None => true
  | Some _ =>
      (! capex (economicData st)) || (! opexAnual (economicData st))
  end.

Definition calculateEconomics (fuel : nat) (st : AppState N)
  : option (AppState N) :=
  match results st with
  | None => Some (setErrors [missingEconomics] st)
  | Some results =>
      let economicData := economicData st in
      if (! capex economicData) || (! opexAnual economicData)
      then Some (setErrors [missingEconomics] st)
      else
        let custoOperacional := custoOperacionalOf results economicData in
        let fluxoCaixaAnual := fluxoCaixaAnualOf results economicData in
        match vplAt fuel economicData fluxoCaixaAnual
                (taxaDesconto economicData) with
        | None => None
        | Some vpl =>
            match tirLoop fuel economicData fluxoCaixaAnual with
            | None => None
            | Some tir =>
                let payback := capex economicData / fluxoCaixaAnual in
                let roi :=
                  ((fluxoCaixaAnual * vidaUtil economicData)
                   - capex economicData) / capex economicData * 100 in
                let custoTonelada :=
                  custoOperacional / (vazao (res_concentrado results) * 8760) in
                let economicResult :=
                  {| vpl := vpl; tir := tir; payback := payback; roi := roi;
                     custoTonelada := custoTonelada |} in
                Some (setEconomicResults (Some economicResult) st)
            end
        end
  end.

Context `{JsFixed N}.

(** The recovery [optimizeParameters] computes for the candidate assay
    [conc], with the mass-balance formula written out in its loop. *)
Definition candidateRecovery (st : AppState N) (conc : N) : N :=
  let F := vazao (alimentacao st) in
  let f := conc in
  let c := num_min (concentracao (concentrado st))
                   (minGrade (optimizationParams st)) in
  let t := concentracao (rejeito st) in
  let C := (F * (f - t)) / (c - t) in
  (C * c) / (F * f) * 100.

(** The guard [c > f && f > t] of the loop. *)
Definition candidateOrdered (st : AppState N) (conc : N) : bool :=
  let f := conc in
  let c := num_min (concentracao (concentrado st))
                   (minGrade (optimizationParams st)) in
  let t := concentracao (rejeito st) in
  (c >? f) && (f >? t).

(** One turn of the loop on [(bestParams, bestRecovery)]. *)
Definition optimizeStep (st : AppState N) (conc : N)
  (best : StreamData N * N) : StreamData N * N :=
  let (bestParams, bestRecovery) := best in
  if candidateOrdered st conc then
    let recuperacao := candidateRecovery st conc in
    if (recuperacao >? bestRecovery)
       && (recuperacao <=? targetRecovery (optimizationParams st) + 5)
    then ({| vazao := vazao bestParams; concentracao := conc;
             densidade := densidade bestParams |}, recuperacao)
    else best
  else best.

Definition optimizeParameters (fuel : nat) (st : AppState N)
  : option (AppState N) :=
  let bestParams := alimentacao st in
  let bestRecovery := 0 in
  match
    for_loop fuel
      (fun conc => conc <=? 40)
      (fun conc => conc + 2)
      (fun conc best => Some (Continue (optimizeStep st conc best)))
      10 (bestParams, bestRecovery)
  with
  | None => None
  | Some (bestParams, _) =>
      Some (setErrors
        [("Otimização concluída! Nova concentração de alimentação: "
          ++ num_toFixed (concentracao bestParams) 2 ++ "%")%string]
        (setAlimentacao bestParams st))
  end.

(** The values of the loop counter: 10, 12, ..., 40. *)
Definition candidates : list N :=
  map num_of_Z [10; 12; 14; 16; 18; 20; 22; 24; 26; 28; 30; 32; 34; 36; 38; 40]%Z.

(** A candidate in the physical ordering whose recovery does not exceed
    [targetRecovery + 5]. *)
Definition eligible (st : AppState N) (conc : N) : bool :=
  candidateOrdered st conc
  && (candidateRecovery st conc <=? targetRecovery (optimizationParams st) + 5).

(** [optimizeParameters] when its counter takes the values [l]. *)
Definition optimizeOver (st : AppState N) (l : list N) : AppState N :=
  let bestParams :=
    fst (fold_left (fun b c => optimizeStep st c b) l
           (alimentacao st, 0)) in
  setErrors
    [("Otimização concluída! Nova concentração de alimentação: "
      ++ num_toFixed (concentracao bestParams) 2 ++ "%")%string]
    (setAlimentacao bestParams st).

End Handlers.

End App.

(** ** The [EconomicAnalysis] component *)

Module EconomicAnalysis.

Section Component.

Context {N : Type} `{JsNumber N}.
Local Open Scope js_scope.

Record EconomicData : Type := {
  precoConcetrado : N;
  custoProcessamento : N;
  custoPerdaMineral : N;
  horasOperacao : N
}.

(** The object passed to [setEconomicResults]: [receita.diaria] is
    [r_diaria (receita _)], [lucro.anual] is [l_anual (lucro _)], and so on. *)
Record Receita : Type := { r_diaria : N; r_mensal : N; r_anual : N }.
Record Custos : Type := { processamento : N; perdas : N; total : N }.
Record Lucro : Type := { l_diario : N; l_mensal : N; l_anual : N }.
Record Indicadores : Type := {
  receita_por_tonelada_concentrado : N;
  custo_por_tonelada_alimentacao : N;
  eficiencia_economica : N
}.

Record EconomicResults : Type := {
  receita : Receita;
  custos : Custos;
  lucro : Lucro;
  margemLucro : N;
  indicadores : Indicadores
}.

(** The component's state: its two [useState] cells. *)
Record State : Type := {
  economicData : EconomicData;
  economicResults : option EconomicResults
}.

Definition setEconomicResults (v : option EconomicResults) (st : State)
  : State :=
  {| economicData := economicData st; economicResults := v |}.

(** [receitaAnual] of [calculateEconomics]. *)
Definition receitaAnualOf (results : BalanceResults N)
  (economicData : EconomicData) : N :=
  vazao (res_concentrado results) * horasOperacao economicData
  * precoConcetrado economicData.

(** [calculateEconomics], with the [results] prop of the component. *)
Definition calculateEconomics (results : option (BalanceResults N))
  (st : State) : State :=
  match results with
  | None => st
  | Some results =>
      let economicData := economicData st in
      if ! precoConcetrado economicData then st
      else
        let receitaAnual := receitaAnualOf results economicData in
        let custoProcessamentoAnual :=
          vazao (res_alimentacao results) * horasOperacao economicData
          * custoProcessamento economicData in
        let mineralPerdido :=
          vazao (res_rejeito results) * concentracao (res_rejeito results)
          / num_of_Z 100 in
        let custoPerdaAnual :=
          mineralPerdido * horasOperacao economicData
          * custoPerdaMineral economicData in
        let lucroOperacionalAnual :=
          receitaAnual - custoProcessamentoAnual - custoPerdaAnual in
        let margemLucro :=
          (lucroOperacionalAnual / receitaAnual) * num_of_Z 100 in
        setEconomicResults
          (Some
             {| receita :=
                  {| r_diaria := receitaAnual / num_of_Z 365;
                     r_mensal := receitaAnual / num_of_Z 12;
                     r_anual := receitaAnual |};
                custos :=
                  {| processamento := custoProcessamentoAnual;
                     perdas := custoPerdaAnual;
                     total := custoProcessamentoAnual + custoPerdaAnual |};
                lucro :=
                  {| l_diario := lucroOperacionalAnual / num_of_Z 365;
                     l_mensal := lucroOperacionalAnual / num_of_Z 12;
                     l_anual := lucroOperacionalAnual |};
                margemLucro := margemLucro;
                indicadores :=
                  {| receita_por_tonelada_concentrado :=
                       precoConcetrado economicData;
                     custo_por_tonelada_alimentacao :=
                       custoProcessamento economicData;
                     eficiencia_economica :=
                       (recuperacao results * precoConcetrado economicData
                        - custoProcessamento economicData)
                       / precoConcetrado economicData * num_of_Z 100 |} |})
          st
  end.

End Component.

Arguments EconomicData : clear implicits.
Arguments EconomicResults : clear implicits.
Arguments State : clear implicits.

End EconomicAnalysis.

(** ** The flowsheet editor of [App]

    The cells [equipments], [flowLines], [nextEquipmentId], [contextMenu],
    [editingEquipment], [showEditModal] and [activeTool] of [App], and the
    handlers that write them.  No handler of the balance, of the economics
    or of the optimizer reads or writes these cells. *)

Module Flowsheet.

Inductive EquipmentType : Type :=
| moinho | britador | rougher | cleaner | recleaner.

(** [nextEquipmentId] is a JavaScript number that holds a whole number, 1 at
    the start: [prev + 1] is exact below 2^53 and leaves 2^53 as it is, the
    sum 2^53 + 1 being rounded to even. *)
Definition succId (prev : Z) : Z :=
  if (prev <? 2 ^ 53)%Z then (prev + 1)%Z else prev.

Section Editor.

Context {N : Type} `{JsNumber N}.
Local Open Scope js_scope.

(** The optional fields of the interface are [option]s. *)
Record EquipmentParameters : Type := {
  p_alimentacao : option (StreamData N);
  p_concentrado : option (StreamData N);
  p_rejeito : option (StreamData N);
  potencia : option N;
  diametro : option N;
  comprimento : option N;
  velocidadeRotacao : option N;
  abertura : option N;
  pressaoAr : option N;
  dosagem : option N;
  tempoRetencao : option N;
  eficiencia : option N
}.

Record Equipment : Type := {
  id : string;
  type : EquipmentType;
  x : N;
  y : N;
  name : string;
  parameters : EquipmentParameters
}.

Record FlowLine : Type := {
  line_id : string;
  fromId : string;
  toId : string;
  fromPoint : N * N;
  toPoint : N * N
}.

Record ContextMenu : Type := {
  menu_x : N;
  menu_y : N;
  equipmentId : string
}.

Record Editor : Type := {
  equipments : list Equipment;
  flowLines : list FlowLine;
  nextEquipmentId : Z;
  contextMenu : option ContextMenu;
  editingEquipment : option Equipment;
  showEditModal : bool;
  activeTool : string
}.

Definition setEquipments (f : list Equipment -> list Equipment) (st : Editor)
  : Editor :=
  {| equipments := f (equipments st); flowLines := flowLines st;
     nextEquipmentId := nextEquipmentId st; contextMenu := contextMenu st;
     editingEquipment := editingEquipment st;
     showEditModal := showEditModal st; activeTool := activeTool st |}.

Definition setFlowLines (v : list FlowLine) (st : Editor) : Editor :=
  {| equipments := equipments st; flowLines := v;
     nextEquipmentId := nextEquipmentId st; contextMenu := contextMenu st;
     editingEquipment := editingEquipment st;
     showEditModal := showEditModal st; activeTool := activeTool st |}.

Definition setNextEquipmentId (f : Z -> Z) (st : Editor) : Editor :=
  {| equipments := equipments st; flowLines := flowLines st;
     nextEquipmentId := f (nextEquipmentId st); contextMenu := contextMenu st;
     editingEquipment := editingEquipment st;
     showEditModal := showEditModal st; activeTool := activeTool st |}.

Definition setContextMenu (v : option ContextMenu) (st : Editor) : Editor :=
  {| equipments := equipments st; flowLines := flowLines st;
     nextEquipmentId := nextEquipmentId st; contextMenu := v;
     editingEquipment := editingEquipment st;
     showEditModal := showEditModal st; activeTool := activeTool st |}.

Definition setEditingEquipment
  (f : option Equipment -> option Equipment) (st : Editor) : Editor :=
  {| equipments := equipments st; flowLines := flowLines st;
     nextEquipmentId := nextEquipmentId st; contextMenu := contextMenu st;
     editingEquipment := f (editingEquipment st);
     showEditModal := showEditModal st; activeTool := activeTool st |}.

Definition setShowEditModal (v : bool) (st : Editor) : Editor :=
  {| equipments := equipments st; flowLines := flowLines st;
     nextEquipmentId := nextEquipmentId st; contextMenu := contextMenu st;
     editingEquipment := editingEquipment st;
     showEditModal := v; activeTool := activeTool st |}.

Definition setActiveTool (v : string) (st : Editor) : Editor :=
  {| equipments := equipments st; flowLines := flowLines st;
     nextEquipmentId := nextEquipmentId st; contextMenu := contextMenu st;
     editingEquipment := editingEquipment st;
     showEditModal := showEditModal st; activeTool := v |}.

(** The initial values of the cells. *)
Definition initialEditor : Editor :=
  {| equipments := []; flowLines := []; nextEquipmentId := 1;
     contextMenu := None; editingEquipment := None;
     showEditModal := false; activeTool := "moinho" |}.

Definition getDefaultParameters (type : EquipmentType) : EquipmentParameters :=
  match type with
  | moinho =>
      {| p_alimentacao := None; p_concentrado := None; p_rejeito := None;
         potencia := Some (num_of_Z 1000); diametro := Some (num_lit 35 1);
         comprimento := Some (num_lit 42 1);
         velocidadeRotacao := Some (num_of_Z 18);
         abertura := None; pressaoAr := None; dosagem := None;
         tempoRetencao := None; eficiencia := Some (num_of_Z 85) |}
  | britador =>
      {| p_alimentacao := None; p_concentrado := None; p_rejeito := None;
         potencia := Some (num_of_Z 500); diametro := None;
         comprimento := None; velocidadeRotacao := None;
         abertura := Some (num_of_Z 25); pressaoAr := None; dosagem := None;
         tempoRetencao := None; eficiencia := Some (num_of_Z 80) |}
  | rougher =>
      {| p_alimentacao := None; p_concentrado := None; p_rejeito := None;
         potencia := None; diametro := None; comprimento := None;
         velocidadeRotacao := None; abertura := None;
         pressaoAr := Some (num_of_Z 150); dosagem := Some (num_of_Z 150);
         tempoRetencao := Some (num_of_Z 8);
         eficiencia := Some (num_of_Z 75) |}
  | cleaner =>
      {| p_alimentacao := None; p_concentrado := None; p_rejeito := None;
         potencia := None; diametro := None; comprimento := None;
         velocidadeRotacao := None; abertura := None;
         pressaoAr := Some (num_of_Z 120); dosagem := Some (num_of_Z 50);
         tempoRetencao := Some (num_of_Z 4);
         eficiencia := Some (num_of_Z 80) |}
  | recleaner =>
      {| p_alimentacao := None; p_concentrado := None; p_rejeito := None;
         potencia := None; diametro := None; comprimento := None;
         velocidadeRotacao := None; abertura := None;
         pressaoAr := Some (num_of_Z 100); dosagem := Some (num_of_Z 25);
         tempoRetencao := Some (num_of_Z 3);
         eficiencia := Some (num_of_Z 85) |}
  end.

(** The test [[...].includes(activeTool)] of [addEquipment] together with
    the cast [activeTool as Equipment['type']]. *)
Definition equipmentTypeOf (activeTool : string) : option EquipmentType :=
  if String.eqb activeTool "moinho" then Some moinho
  else if String.eqb activeTool "britador" then Some britador
  else if String.eqb activeTool "rougher" then Some rougher
  else if String.eqb activeTool "cleaner" then Some cleaner
  else if String.eqb activeTool "recleaner" then Some recleaner
  else None.

Definition equipmentNames (type : EquipmentType) : string :=
  match type with
  | moinho => "Moinho"
  | britador => "Britador"
  | rougher => "Rougher"
  | cleaner => "Cleaner"
  | recleaner => "Recleaner"
  end.

(** [addEquipment]: [clientX], [clientY] are those of the event and [left],
    [top] those of the bounding rectangle of the canvas. *)
Definition addEquipment (clientX clientY left top : N) (st : Editor) : Editor :=
  match equipmentTypeOf (activeTool st) with
  | None => st
  | Some type =>
      let x := clientX - left in
      let y := clientY - top in
      let newEquipment :=
        {| id := "eq_" ++ digits_of_Z (nextEquipmentId st);
           type := type;
           x := x - num_of_Z 30;
           y := y - num_of_Z 20;
           name := equipmentNames type ++ "-"
                   ++ digits_of_Z (nextEquipmentId st);
           parameters := getDefaultParameters type |} in
      setNextEquipmentId succId
        (setEquipments (fun prev => prev ++ [newEquipment]) st)
  end.

Definition clearCanvas (st : Editor) : Editor :=
  setNextEquipmentId (fun _ => 1%Z)
    (setFlowLines [] (setEquipments (fun _ => []) st)).

Definition showContextMenu (clientX clientY : N) (equipmentId : string)
  (st : Editor) : Editor :=
  setContextMenu
    (Some {| menu_x := clientX; menu_y := clientY;
             equipmentId := equipmentId |}) st.

Definition hideContextMenu (st : Editor) : Editor := setContextMenu None st.

Definition deleteEquipment (equipmentId : string) (st : Editor) : Editor :=
  hideContextMenu
    (setEquipments
       (fun prev => filter (fun eq => negb (String.eqb (id eq) equipmentId)) prev)
       st).

Definition editEquipment (equipmentId : string) (st : Editor) : Editor :=
  let equipment :=
    find (fun eq => String.eqb (id eq) equipmentId) (equipments st) in
  hideContextMenu
    match equipment with
    | Some equipment =>
        setShowEditModal true (setEditingEquipment (fun _ => Some equipment) st)
    | None => st
    end.

Definition saveEquipment (updatedEquipment : Equipment) (st : Editor) : Editor :=
  setEditingEquipment (fun _ => None)
    (setShowEditModal false
       (setEquipments
          (fun prev =>
             map (fun eq =>
                    if String.eqb (id eq) (id updatedEquipment)
                    then updatedEquipment else eq) prev)
          st)).

(** The handlers written in the markup. *)

(** [editingEquipment && saveEquipment(editingEquipment)] of the button
    Salvar. *)
Definition saveEditing (st : Editor) : Editor :=
  match editingEquipment st with
  | Some editingEquipment => saveEquipment editingEquipment st
  | None => st
  end.

(** The buttons that close the dialog: one form only hides it, the other
    also forgets the equipment being edited. *)
Definition closeEditModal (st : Editor) : Editor := setShowEditModal false st.

Definition cancelEditing (st : Editor) : Editor :=
  setEditingEquipment (fun _ => None) (setShowEditModal false st).

(** [prev ? { ...prev, name: value } : null] of the name field. *)
Definition withName (value : string) (prev : Equipment) : Equipment :=
  {| id := id prev; type := type prev; x := x prev; y := y prev;
     name := value; parameters := parameters prev |}.

Definition editName (value : string) (st : Editor) : Editor :=
  setEditingEquipment (option_map (withName value)) st.

(** [prev ? { ...prev, parameters: { ...prev.parameters, field: value } } :
    null] of the number fields, for any one of the fields: [update] stands
    for the change of the parameters. *)
Definition withParameters (update : EquipmentParameters -> EquipmentParameters)
  (prev : Equipment) : Equipment :=
  {| id := id prev; type := type prev; x := x prev; y := y prev;
     name := name prev; parameters := update (parameters prev) |}.

Definition editParameters (update : EquipmentParameters -> EquipmentParameters)
  (st : Editor) : Editor :=
  setEditingEquipment (option_map (withParameters update)) st.

(** One event of the editor. *)
Inductive step : Editor -> Editor -> Prop :=
| step_tool st tool : step st (setActiveTool tool st)
| step_add st clientX clientY left top :
    step st (addEquipment clientX clientY left top st)
| step_clear st : step st (clearCanvas st)
| step_show st clientX clientY equipmentId :
    step st (showContextMenu clientX clientY equipmentId st)
| step_hide st : step st (hideContextMenu st)
| step_delete st equipmentId : step st (deleteEquipment equipmentId st)
| step_edit st equipmentId : step st (editEquipment equipmentId st)
| step_save st : step st (saveEditing st)
| step_close st : step st (closeEditModal st)
| step_cancel st : step st (cancelEditing st)
| step_name st value : step st (editName value st)
| step_parameters st update : step st (editParameters update st).

(** The states the editor can be in. *)
Inductive reachable : Editor -> Prop :=
| reachable_initial : reachable initialEditor
| reachable_step st st' : reachable st -> step st st' -> reachable st'.

End Editor.

Arguments EquipmentParameters : clear implicits.
Arguments Equipment : clear implicits.
Arguments FlowLine : clear implicits.
Arguments ContextMenu : clear implicits.
Arguments Editor : clear implicits.

End Flowsheet.

(** ** The pie chart of [PerformanceCharts] *)

Module PerformanceCharts.

Section Component.

Context {N : Type} `{JsNumber N} `{JsFixed N}.
Local Open Scope js_scope.

Record Slice : Type := { name : string; value : N; percentage : string }.

(** [distributionData], computed when the [results] prop is not null. *)
Definition distributionData (results : BalanceResults N) : list Slice :=
  [ {| name := "Concentrado";
       value := vazao (res_concentrado results);
       percentage :=
         num_toFixed
           (vazao (res_concentrado results) / vazao (res_alimentacao results)
            * num_of_Z 100) 1 |};
    {| name := "Rejeito";
       value := vazao (res_rejeito results);
       percentage :=
         num_toFixed
           (vazao (res_rejeito results) / vazao (res_alimentacao results)
            * num_of_Z 100) 1 |} ].

End Component.

Arguments Slice : clear implicits.

End PerformanceCharts.

(** ** States used in the statements and as examples *)

Section States.

Context {N : Type} `{JsNumber N}.

(** The initial values of the [useState] cells of [App]. *)
Definition initialState : AppState N :=
  let zero :=
    {| vazao := num_of_Z 0; concentracao := num_of_Z 0;
       densidade := num_of_Z 0 |} in
  {| alimentacao := zero; concentrado := zero; rejeito := zero;
     results := None; errors := [];
     economicData :=
       {| capex := num_of_Z 0; opexAnual := num_of_Z 0; receita := num_of_Z 0;
          vidaUtil := num_of_Z 10; taxaDesconto := num_of_Z 12;
          custoEnergia := num_lit 8 2; custoMaodeObra := num_of_Z 50000;
          custoManutencao := num_of_Z 25000 |};
     economicResults := None;
     optimizationParams :=
       {| targetRecovery := num_of_Z 85; maxDensity := num_of_Z 5;
          minGrade := num_of_Z 60; energyLimit := num_of_Z 15 |};
     simulationHistory := []; circuitType := "grinding" |}.

(** The input fields filled in: feed flow rate, assay and density, and the
    assay and density of concentrate and tailings (whose flow rate fields
    are read-only and stay 0). *)
Definition filled (F f dF c dC t dT : N) (st : AppState N) : AppState N :=
  setRejeito {| vazao := num_of_Z 0; concentracao := t; densidade := dT |}
    (setConcentrado {| vazao := num_of_Z 0; concentracao := c; densidade := dC |}
       (setAlimentacao {| vazao := F; concentracao := f; densidade := dF |} st)).

(** The iron ore example of [loadExample]. *)
Definition ironOre : AppState N := App.loadExample "iron-ore" initialState.

(** The coal example of [loadExample]: the concentrate is the poorer
    product, the tailings the richer. *)
Definition coal : AppState N := App.loadExample "coal" initialState.

(** Feed and concentrate both at assay 100. *)
Definition pureFeed : AppState N :=
  filled (num_of_Z 100) (num_of_Z 100) (num_of_Z 3)
         (num_of_Z 100) (num_of_Z 4) (num_of_Z 10) (num_of_Z 3) initialState.

(** The iron ore example with the sign of the feed flow rate changed. *)
Definition negativeFeed : AppState N :=
  filled (num_of_Z (-100)) (num_lit 355 1) (num_lit 38 1)
         (num_lit 682 1) (num_lit 48 1) (num_lit 85 1) (num_lit 29 1)
         initialState.

(** Feed, concentrate and tailings all at assay 10. *)
Definition degenerate : AppState N :=
  filled (num_of_Z 100) (num_of_Z 10) (num_of_Z 3)
         (num_of_Z 10) (num_of_Z 3) (num_of_Z 10) (num_of_Z 3) initialState.

(** A concentrate poorer than the feed asks for more concentrate than feed. *)
Definition poorConcentrate : AppState N :=
  filled (num_of_Z 100) (num_lit 355 1) (num_lit 38 1)
         (num_of_Z 20) (num_lit 48 1) (num_lit 85 1) (num_lit 29 1)
         initialState.

(** A stream with its assay replaced, or left as it is. *)
Definition withAssay (chosen : option N) (a : StreamData N) : StreamData N :=
  match chosen with
  | Some conc =>
      {| vazao := vazao a; concentracao := conc; densidade := densidade a |}
  | None => a
  end.

(** Feed and tailings at the same assay: no concentrate. *)
Definition barren : AppState N :=
  filled (num_of_Z 100) (num_of_Z 10) (num_of_Z 3)
         (num_of_Z 50) (num_of_Z 4) (num_of_Z 10) (num_of_Z 3) initialState.

(** The economic form of [App] filled in. *)
Definition withEconomics (capex opexAnual receita : N) (st : AppState N)
  : AppState N :=
  {| alimentacao := alimentacao st; concentrado := concentrado st;
     rejeito := rejeito st; results := results st; errors := errors st;
     economicData :=
       {| capex := capex; opexAnual := opexAnual; receita := receita;
          vidaUtil := vidaUtil (economicData st);
          taxaDesconto := taxaDesconto (economicData st);
          custoEnergia := custoEnergia (economicData st);
          custoMaodeObra := custoMaodeObra (economicData st);
          custoManutencao := custoManutencao (economicData st) |};
     economicResults := economicResults st;
     optimizationParams := optimizationParams st;
     simulationHistory := simulationHistory st;
     circuitType := circuitType st |}.

(** The iron ore example solved, with a plant of 1 000 000 that costs
    100 000 a year and sells at the price [receita]. *)
Definition ironOrePlant (receita : N) : AppState N :=
  withEconomics (num_of_Z 1000000) (num_of_Z 100000) receita
    (App.calculateBalance ironOre).

(** The discount rate of the economic form set to [taxa]. *)
Definition atDiscountRate (taxa : N) (st : AppState N) : AppState N :=
  {| alimentacao := alimentacao st; concentrado := concentrado st;
     rejeito := rejeito st; results := results st; errors := errors st;
     economicData :=
       {| capex := capex (economicData st);
          opexAnual := opexAnual (economicData st);
          receita := receita (economicData st);
          vidaUtil := vidaUtil (economicData st);
          taxaDesconto := taxa;
          custoEnergia := custoEnergia (economicData st);
          custoMaodeObra := custoMaodeObra (economicData st);
          custoManutencao := custoManutencao (economicData st) |};
     economicResults := economicResults st;
     optimizationParams := optimizationParams st;
     simulationHistory := simulationHistory st;
     circuitType := circuitType st |}.

(** A flowsheet drawn in four clicks and a deletion: a mill, then with the
    tool Cleaner a cleaner, the mill deleted, one more cleaner. *)
Definition sketch : Flowsheet.Editor N :=
  Flowsheet.addEquipment (num_of_Z 500) (num_of_Z 240)
    (num_of_Z 200) (num_of_Z 100)
    (Flowsheet.deleteEquipment "eq_1"
       (Flowsheet.addEquipment (num_of_Z 400) (num_of_Z 300)
          (num_of_Z 200) (num_of_Z 100)
          (Flowsheet.setActiveTool "cleaner"
             (Flowsheet.addEquipment (num_of_Z 300) (num_of_Z 200)
                (num_of_Z 200) (num_of_Z 100)
                Flowsheet.initialEditor)))).

(** The [EconomicAnalysis] form filled in. *)
Definition analysis (precoConcetrado custoProcessamento custoPerdaMineral
                     horasOperacao : N) : EconomicAnalysis.State N :=
  {| EconomicAnalysis.economicData :=
       {| EconomicAnalysis.precoConcetrado := precoConcetrado;
          EconomicAnalysis.custoProcessamento := custoProcessamento;
          EconomicAnalysis.custoPerdaMineral := custoPerdaMineral;
          EconomicAnalysis.horasOperacao := horasOperacao |};
     EconomicAnalysis.economicResults := None |}.

End States.

Section ExactStates.

Import Exact.

(** The streams of a state hold the finite values [F], [f], [c] and [t]
    where [calculateBalance] reads them. *)
Definition reads (st : AppState xnum) (F f c t : Q) : Prop :=
  vazao (alimentacao st) = XFin F
  /\ concentracao (alimentacao st) = XFin f
  /\ concentracao (concentrado st) = XFin c
  /\ concentracao (rejeito st) = XFin t.

Definition densitiesGiven (st : AppState xnum) : Prop :=
  xfalsy (densidade (alimentacao st)) = false
  /\ xfalsy (densidade (concentrado st)) = false
  /\ xfalsy (densidade (rejeito st)) = false.

(** What the loop holds after the candidates [done]: no App.eligible candidate
    yet and the feed assay untouched, or the first of the App.eligible
    candidates of highest recovery. *)
Definition bestSoFar (st : AppState xnum) (done : list xnum)
  (best : StreamData xnum * xnum) : Prop :=
  (snd best = xof_Z 0
   /\ concentracao (fst best) = concentracao (alimentacao st)
   /\ forall y, In y done -> App.eligible st y = false)
  \/ (exists x,
        In x done /\ App.eligible st x = true
        /\ concentracao (fst best) = x
        /\ snd best = App.candidateRecovery st x
        /\ forall y, In y done -> App.eligible st y = true ->
                     xle (App.candidateRecovery st y) (App.candidateRecovery st x)
                     = true).

(** The rates the search for [tir] tries: 1.0, 1.1, ..., 100.0. *)
Definition rates : list xnum :=
  map (fun k => dec (10 + Z.of_nat k) 1) (seq 0 991).

(** [vplTeste <= 0] at the rate [taxa]. *)
Definition crossing (fuel : nat) (economicData : EconomicData xnum)
  (fluxoCaixaAnual taxa : xnum) : bool :=
  match App.vplAt fuel economicData fluxoCaixaAnual taxa with
  | Some vplTeste => xle vplTeste (xof_Z 0)
  | None => false
  end.

(** [b - 0.1] is [a] and [a + 0.1] is [b], for each two neighbours [a],
    [b] of a list of rates; decided by comparing numerators and
    denominators. *)
Definition xnum_eqb (a b : xnum) : bool :=
  match a, b with
  | XNaN, XNaN => true
  | XInf s, XInf s' => Bool.eqb s s'
  | XFin p, XFin q => (Qnum p =? Qnum q)%Z && (Qden p =? Qden q)%positive
  | _, _ => false
  end.

Fixpoint stepsOfTenth (l : list xnum) : bool :=
  match l with
  | a :: (b :: _) as l' =>
      xnum_eqb (xsub b (XFin (1 # 10))) a
      && xnum_eqb (xadd a (XFin (1 # 10))) b
      && stepsOfTenth l'
  | _ => true
  end.

(** A value within [tol] of the decimal [v]. *)
Definition near (tol : Q) (x : xnum) (v : Q) : Prop :=
  match x with
  | XFin q => Qabs (q - v) <= tol
  | _ => False
  end.

End ExactStates.

(** The same for binary64. *)
Definition fnear (tol : float) (x v : float) : bool :=
  PrimFloat.leb (PrimFloat.abs (PrimFloat.sub x v)) tol.

(** * Properties *)

(** ** Loops *)

Section LoopFacts.

Context {N S : Type}.
Variables (cond : N -> bool) (incr : N -> N).

Lemma counters_more_fuel :
  forall fuel i l,
    counters fuel cond incr i = Some l ->
    forall fuel', (fuel <= fuel')%nat -> counters fuel' cond incr i = Some l.
Proof.
  induction fuel as [|fuel IH]; intros i l Hc fuel' Hle; [discriminate|].
  destruct fuel' as [|fuel']; [lia|].
  simpl in *. destruct (cond i); [|assumption].
  destruct (counters fuel cond incr (incr i)) as [l'|] eqn:E; [|discriminate].
  rewrite (IH _ _ E fuel') by lia. assumption.
Qed.

Lemma for_loop_counters (body : N -> S -> option (flow S)) :
  forall fuel i l s,
    counters fuel cond incr i = Some l ->
    for_loop fuel cond incr body i s = run_body body l s.
Proof.
  induction fuel as [|fuel IH]; intros i l s Hc; [discriminate|].
  simpl in *. destruct (cond i).
  - destruct (counters fuel cond incr (incr i)) as [l'|] eqn:E; [|discriminate].
    injection Hc as <-. simpl.
    destruct (body i s) as [[s'|s']|]; auto.
  - injection Hc as <-. reflexivity.
Qed.

(** A body that never breaks and never fails is a fold. *)
Lemma run_body_fold (step : N -> S -> S) :
  forall l s,
    run_body (fun i s => Some (Continue (step i s))) l s
    = Some (fold_left (fun s i => step i s) l s).
Proof.
  induction l as [|i l IH]; intro s; simpl; auto.
Qed.

(** A body that breaks at the first counter value that passes a test. *)
Lemma run_body_find {V : Type} (f : N -> option V) (test : V -> bool)
  (g : N -> S) :
  forall l s,
    (forall i, In i l -> f i <> None) ->
    run_body
      (fun i s =>
         match f i with
         | None => None
         | Some v => if test v then Some (Break (g i)) else Some (Continue s)
         end) l s
    = Some match find (fun i => match f i with
                                | Some v => test v
                                | None => false
                                end) l with
           | Some i => g i
           | None => s
           end.
Proof.
  induction l as [|i l IH]; intros s Hf; [reflexivity|].
  cbn [run_body find].
  destruct (f i) as [v|] eqn:E; [|exfalso; apply (Hf i (in_eq _ _)); exact E].
  destruct (test v); [reflexivity|].
  apply IH. intros j Hj. apply Hf. right. exact Hj.
Qed.

End LoopFacts.

(** ** Literals

    The decimal literals of the handlers, read as quotients of integers, are
    the binary64 numbers a JavaScript engine reads them as. *)

Section Literals.

Import Binary64.

Lemma literals_binary64 :
  num_lit (N := float) 1 1 = 0.1%float
  /\ num_lit (N := float) 8 2 = 0.08%float
  /\ num_lit (N := float) 355 1 = 35.5%float
  /\ num_lit (N := float) 38 1 = 3.8%float
  /\ num_lit (N := float) 682 1 = 68.2%float
  /\ num_lit (N := float) 48 1 = 4.8%float
  /\ num_lit (N := float) 85 1 = 8.5%float
  /\ num_lit (N := float) 29 1 = 2.9%float
  /\ num_lit (N := float) 85 2 = 0.85%float
  /\ num_lit (N := float) 27 1 = 2.7%float
  /\ num_lit (N := float) 285 1 = 28.5%float
  /\ num_lit (N := float) 32 1 = 3.2%float
  /\ num_lit (N := float) 12 2 = 0.12%float
  /\ num_lit (N := float) 26 1 = 2.6%float
  /\ num_lit (N := float) 258 1 = 25.8%float
  /\ num_lit (N := float) 16 1 = 1.6%float
  /\ num_lit (N := float) 52 1 = 5.2%float
  /\ num_lit (N := float) 13 1 = 1.3%float
  /\ num_lit (N := float) 685 1 = 68.5%float
  /\ num_lit (N := float) 21 1 = 2.1%float.
Proof. vm_compute. repeat split. Qed.

End Literals.

(** ** [calculateBalance]: what a run that fails leaves behind *)

Section BalanceFacts.

Context {N : Type} `{JsNumber N}.
Import App.
Local Open Scope js_scope.

Lemma balance_incomplete (st : AppState N) :
  inputsComplete st = false ->
  exists newErrors,
    newErrors <> [] /\
    balance (alimentacao st) (concentrado st) (rejeito st) = Rejected newErrors.
Proof.
  unfold inputsComplete, balance, push_if. intro Hf.
  destruct ((! vazao (alimentacao st)) || (! concentracao (alimentacao st))
            || (! densidade (alimentacao st)));
  destruct ((! concentracao (concentrado st)) || (! densidade (concentrado st)));
  destruct ((! concentracao (rejeito st)) || (! densidade (rejeito st)));
  simpl in *; try discriminate;
  eexists; (split; [|reflexivity]); discriminate.
Qed.

Lemma balance_complete (st : AppState N) :
  inputsComplete st = true ->
  balance (alimentacao st) (concentrado st) (rejeito st)
  = if (solvedC st <? num_of_Z 0) || (solvedT st <? num_of_Z 0)
    then Rejected [nonPhysical]
    else
      Solved
        {| res_alimentacao := alimentacao st;
           res_concentrado :=
             {| vazao := solvedC st;
                concentracao := concentracao (concentrado st);
                densidade := densidade (concentrado st) |};
           res_rejeito :=
             {| vazao := solvedT st;
                concentracao := concentracao (rejeito st);
                densidade := densidade (rejeito st) |};
           recuperacao :=
             (solvedC st * concentracao (concentrado st))
             / (vazao (alimentacao st) * concentracao (alimentacao st))
             * num_of_Z 100;
           razaoConcentracao :=
             concentracao (concentrado st) / concentracao (alimentacao st);
           eficienciaSeparacao :=
             (solvedC st * concentracao (concentrado st))
             / (vazao (alimentacao st) * concentracao (alimentacao st))
             * num_of_Z 100
             * (concentracao (concentrado st) - concentracao (alimentacao st))
             / (concentracao (concentrado st)
                * (num_of_Z 100 - concentracao (alimentacao st))) |}.
Proof.
  unfold inputsComplete, balance, push_if, solvedT, solvedC. intro Hc.
  destruct ((! vazao (alimentacao st)) || (! concentracao (alimentacao st))
            || (! densidade (alimentacao st))); [discriminate|].
  destruct ((! concentracao (concentrado st)) || (! densidade (concentrado st)));
    [discriminate|].
  destruct ((! concentracao (rejeito st)) || (! densidade (rejeito st)));
    [discriminate|].
  reflexivity.
Qed.

Lemma calculateBalance_rejected (st : AppState N) newErrors :
  balance (alimentacao st) (concentrado st) (rejeito st) = Rejected newErrors ->
  calculateBalance st = setErrors newErrors st.
Proof. unfold calculateBalance. intros ->. reflexivity. Qed.

Lemma calculateBalance_solved (st : AppState N) newResults :
  balance (alimentacao st) (concentrado st) (rejeito st) = Solved newResults ->
  calculateBalance st
  = setSimulationHistory (fun prev => slice_last 20 (prev ++ [newResults]))
      (setErrors [] (setResults (Some newResults) st)).
Proof. unfold calculateBalance. intros ->. reflexivity. Qed.

(** C3. When the solved flow rate [C] or [T] is negative the run ends with
    the "resultados não físicos" message and returns no flow rates; every
    run that fails (incomplete input or non-physical result) replaces the
    list of errors and nothing else, so the stored result and the history
    are as before; and a run that succeeds stores no negative flow rate. *)
Theorem failed_solve_replaces_only_errors (st : AppState N) :
  (inputsComplete st = true ->
   (solvedC st <? num_of_Z 0) || (solvedT st <? num_of_Z 0) = true ->
   balance (alimentacao st) (concentrado st) (rejeito st)
   = Rejected [nonPhysical])
  /\ (forall newErrors,
        balance (alimentacao st) (concentrado st) (rejeito st)
        = Rejected newErrors ->
        newErrors <> []
        /\ calculateBalance st = setErrors newErrors st
        /\ errors (calculateBalance st) = newErrors
        /\ results (calculateBalance st) = results st
        /\ simulationHistory (calculateBalance st) = simulationHistory st)
  /\ (forall newResults,
        balance (alimentacao st) (concentrado st) (rejeito st)
        = Solved newResults ->
        (vazao (res_concentrado newResults) <? num_of_Z 0) = false
        /\ (vazao (res_rejeito newResults) <? num_of_Z 0) = false).
Proof.
  split; [|split].
  - intros Hc Hneg. rewrite (balance_complete st Hc), Hneg. reflexivity.
  - intros newErrors Hb.
    rewrite (calculateBalance_rejected st newErrors Hb).
    repeat split; try reflexivity.
    destruct (inputsComplete st) eqn:Hc.
    + rewrite (balance_complete st Hc) in Hb.
      destruct ((solvedC st <? num_of_Z 0) || (solvedT st <? num_of_Z 0));
        [|discriminate].
      injection Hb as <-. discriminate.
    + destruct (balance_incomplete st Hc) as (errs & Hne & Hb').
      rewrite Hb in Hb'. injection Hb' as ->. exact Hne.
  - intros newResults Hb.
    destruct (inputsComplete st) eqn:Hc.
    + rewrite (balance_complete st Hc) in Hb.
      destruct ((solvedC st <? num_of_Z 0) || (solvedT st <? num_of_Z 0)) eqn:E;
        [discriminate|].
      injection Hb as <-. simpl.
      apply orb_false_iff in E. exact E.
    + destruct (balance_incomplete st Hc) as (errs & _ & Hb').
      rewrite Hb in Hb'. discriminate.
Qed.

End BalanceFacts.

(** ** The history of simulations *)

Section SliceFacts.

Context {A : Type}.

Lemma slice_last_length (k : nat) (l : list A) :
  List.length (slice_last k l) = Nat.min k (List.length l).
Proof. unfold slice_last. rewrite length_skipn. lia. Qed.

Lemma slice_last_short (k : nat) (l : list A) :
  (List.length l <= k)%nat -> slice_last k l = l.
Proof.
  unfold slice_last. intro Hle.
  replace (List.length l - k)%nat with O by lia. reflexivity.
Qed.

Lemma slice_last_app (k : nat) (l m : list A) :
  slice_last k (slice_last k l ++ m) = slice_last k (l ++ m).
Proof.
  unfold slice_last.
  rewrite !length_app, length_skipn, !skipn_app, length_skipn, skipn_skipn.
  f_equal; f_equal; lia.
Qed.

Lemma slice_last_suffix (k : nat) (l m : list A) :
  List.length m = k -> slice_last k (l ++ m) = m.
Proof.
  unfold slice_last. intro Hm.
  rewrite length_app, skipn_app.
  replace (List.length l + List.length m - k)%nat with (List.length l) by lia.
  rewrite skipn_all, Nat.sub_diag. reflexivity.
Qed.

End SliceFacts.

Section HistoryFacts.

Context {N : Type} `{JsNumber N}.
Import App.

Lemma session_history (st : AppState N) solved st' :
  session st solved st' ->
  (List.length (simulationHistory st) <= 20)%nat ->
  simulationHistory st' = slice_last 20 (simulationHistory st ++ solved).
Proof.
  induction 1 as [st | st st1 solved st' Hsame _ IH
                 | st r solved st' Hb _ IH | st errs solved st' Hb _ IH];
    intro Hlen.
  - rewrite app_nil_r, slice_last_short; auto.
  - rewrite IH, Hsame by (rewrite Hsame; exact Hlen). reflexivity.
  - rewrite IH.
    + rewrite (calculateBalance_solved st r Hb). simpl.
      rewrite slice_last_app, <- app_assoc. reflexivity.
    + rewrite (calculateBalance_solved st r Hb). simpl.
      rewrite slice_last_length. lia.
  - rewrite (calculateBalance_rejected st errs Hb) in IH. simpl in IH.
    apply IH. exact Hlen.
Qed.

(** C5. Along any session that starts with at most 20 entries in the
    history (the application starts with none), the history is the last 20
    of the old entries followed by the results of the successful solves, in
    order: runs that fail and the other handlers add nothing.  It never
    holds more than 20 entries, and after 21 successful solves it is exactly
    the results of the 2nd to the 21st: the entry of the 1st solve has been
    evicted and that of the 21st is the last one. *)
Theorem history_keeps_last_20_solves (st : AppState N) solved st' :
  session st solved st' ->
  (List.length (simulationHistory st) <= 20)%nat ->
  simulationHistory st' = slice_last 20 (simulationHistory st ++ solved)
  /\ (List.length (simulationHistory st') <= 20)%nat
  /\ (forall first rest,
        solved = first :: rest -> List.length rest = 20%nat ->
        simulationHistory st' = rest
        /\ nth_error (simulationHistory st') 19 = nth_error solved 20).
Proof.
  intros Hs Hlen. pose proof (session_history st solved st' Hs Hlen) as Hh.
  split; [exact Hh|]. split.
  - rewrite Hh, slice_last_length. lia.
  - intros first rest -> Hrest.
    assert (simulationHistory st' = rest) as ->.
    { rewrite Hh.
      replace (simulationHistory st ++ first :: rest)
        with ((simulationHistory st ++ [first]) ++ rest)
        by (rewrite <- app_assoc; reflexivity).
      apply slice_last_suffix. exact Hrest. }
    split; reflexivity.
Qed.

End HistoryFacts.

(** ** [optimizeParameters]: what it leaves alone *)

Section OptimizeFrame.

Context {N : Type} `{JsNumber N} `{JsPow N} `{JsFixed N}.
Import App.
Local Open Scope js_scope.

Lemma optimizeStep_frame (st : AppState N) conc best :
  vazao (fst (optimizeStep st conc best)) = vazao (fst best)
  /\ densidade (fst (optimizeStep st conc best)) = densidade (fst best).
Proof.
  unfold optimizeStep. destruct best as [bestParams bestRecovery].
  destruct (candidateOrdered st conc); [|auto].
  destruct ((candidateRecovery st conc >? bestRecovery)
            && (candidateRecovery st conc
                <=? targetRecovery (optimizationParams st) + num_of_Z 5));
    auto.
Qed.

Lemma optimize_fold_frame (st : AppState N) :
  forall l best,
    vazao (fst (fold_left (fun b c => optimizeStep st c b) l best))
    = vazao (fst best)
    /\ densidade (fst (fold_left (fun b c => optimizeStep st c b) l best))
       = densidade (fst best).
Proof.
  induction l as [|c l IH]; intro best; simpl; [auto|].
  destruct (IH (optimizeStep st c best)) as [-> ->].
  apply optimizeStep_frame.
Qed.

Lemma optimizeParameters_over (fuel : nat) (st : AppState N) (l : list N) :
  counters fuel (fun conc => conc <=? num_of_Z 40)
    (fun conc => conc + num_of_Z 2) (num_of_Z 10) = Some l ->
  optimizeParameters fuel st = Some (optimizeOver st l).
Proof.
  intro Hc. unfold optimizeParameters, optimizeOver.
  rewrite (for_loop_counters _ _ _ fuel _ l _ Hc), run_body_fold.
  destruct (fold_left _ l _). reflexivity.
Qed.

Lemma optimizeOver_frame (st : AppState N) (l : list N) :
  vazao (alimentacao (optimizeOver st l)) = vazao (alimentacao st)
  /\ densidade (alimentacao (optimizeOver st l)) = densidade (alimentacao st)
  /\ concentrado (optimizeOver st l) = concentrado st
  /\ rejeito (optimizeOver st l) = rejeito st.
Proof.
  unfold optimizeOver. simpl.
  destruct (optimize_fold_frame st l (alimentacao st, num_of_Z 0)) as [-> ->].
  auto.
Qed.

(** C10. Whenever the counter of its loop stops (it does, after 16 turns,
    whatever the state), [optimizeParameters] ends, and the state it leaves
    has the feed flow rate, the feed density, the concentrate stream and the
    tailings stream of the state it started from: of the three streams, only
    the feed assay may differ. *)
Theorem optimizer_changes_only_the_feed_assay
  (st : AppState N) (fuel : nat) (l : list N) :
  counters fuel (fun conc => conc <=? num_of_Z 40)
    (fun conc => conc + num_of_Z 2) (num_of_Z 10) = Some l ->
  exists st',
    optimizeParameters fuel st = Some st'
    /\ vazao (alimentacao st') = vazao (alimentacao st)
    /\ densidade (alimentacao st') = densidade (alimentacao st)
    /\ concentrado st' = concentrado st
    /\ rejeito st' = rejeito st.
Proof.
  intro Hc. exists (optimizeOver st l).
  split; [apply optimizeParameters_over; exact Hc|].
  apply optimizeOver_frame.
Qed.

(** The other handlers leave the history alone. *)
Lemma other_handlers_keep_history (st : AppState N) :
  (forall type, simulationHistory (loadExample type st) = simulationHistory st)
  /\ simulationHistory (resetForm st) = simulationHistory st
  /\ (forall fuel st',
        optimizeParameters fuel st = Some st' ->
        simulationHistory st' = simulationHistory st)
  /\ (forall fuel st',
        calculateEconomics fuel st = Some st' ->
        simulationHistory st' = simulationHistory st).
Proof.
  split; [|split; [|split]].
  - intro type. unfold loadExample.
    destruct (String.eqb type "iron-ore"); [reflexivity|].
    destruct (String.eqb type "copper"); [reflexivity|].
    destruct (String.eqb type "coal"); reflexivity.
  - reflexivity.
  - intros fuel st'. unfold optimizeParameters.
    destruct (for_loop _ _ _ _ _ _) as [[bestParams bestRecovery]|];
      [|discriminate].
    intro E. injection E as <-. reflexivity.
  - intros fuel st'. unfold calculateEconomics.
    destruct (results st) as [res|]; [|intro E; injection E as <-; reflexivity].
    destruct ((! capex (economicData st)) || (! opexAnual (economicData st)));
      [intro E; injection E as <-; reflexivity|].
    destruct (vplAt _ _ _ _); [|discriminate].
    destruct (tirLoop _ _ _); [|discriminate].
    intro E. injection E as <-. reflexivity.
Qed.

End OptimizeFrame.

(** ** Exact numbers *)

Section ExactFacts.

Import Exact.

Lemma Qzero_b_true (q : Q) : Qzero_b q = true <-> q == 0.
Proof. unfold Qzero_b. apply Qeq_bool_iff. Qed.

Lemma Qzero_b_false (q : Q) : Qzero_b q = false <-> ~ q == 0.
Proof.
  rewrite <- Qzero_b_true. destruct (Qzero_b q); intuition congruence.
Qed.

Lemma Qneg_b_true (q : Q) : Qneg_b q = true <-> q < 0.
Proof.
  unfold Qneg_b. rewrite negb_true_iff, <- not_true_iff_false, Qle_bool_iff.
  split; [apply Qnot_le_lt | apply Qlt_not_le].
Qed.

Lemma Qneg_b_false (q : Q) : Qneg_b q = false <-> 0 <= q.
Proof. unfold Qneg_b. rewrite negb_false_iff. apply Qle_bool_iff. Qed.

Lemma xlt_fin (p q : Q) : xlt (XFin p) (XFin q) = true <-> p < q.
Proof.
  simpl. rewrite negb_true_iff, <- not_true_iff_false, Qle_bool_iff.
  split; [apply Qnot_le_lt | apply Qlt_not_le].
Qed.

Lemma xlt_fin_false (p q : Q) : xlt (XFin p) (XFin q) = false <-> q <= p.
Proof. simpl. rewrite negb_false_iff. apply Qle_bool_iff. Qed.

Lemma xle_fin (p q : Q) : xle (XFin p) (XFin q) = true <-> p <= q.
Proof. simpl. apply Qle_bool_iff. Qed.

Lemma xdiv_fin (p q : Q) :
  ~ q == 0 -> xdiv (XFin p) (XFin q) = XFin (Qred (p / q)).
Proof. intro Hq. simpl. apply Qzero_b_false in Hq. rewrite Hq. reflexivity. Qed.

Lemma xfalsy_fin (q : Q) : xfalsy (XFin q) = false <-> ~ q == 0.
Proof. simpl. apply Qzero_b_false. Qed.

End ExactFacts.

(** ** The mass balance in exact arithmetic *)

Section ExactBalance.

Import Exact App.

Lemma inputsComplete_finite st F f c t :
  reads st F f c t -> densitiesGiven st ->
  ~ F == 0 -> ~ f == 0 -> ~ c == 0 -> ~ t == 0 ->
  inputsComplete st = true.
Proof.
  intros (HF & Hf & Hc & Ht) (dF & dC & dT) nF nf nc nt.
  unfold inputsComplete. cbn [num_falsy xnum_number].
  rewrite HF, Hf, Hc, Ht, dF, dC, dT.
  apply xfalsy_fin in nF, nf, nc, nt. rewrite nF, nf, nc, nt. reflexivity.
Qed.

Lemma solved_finite st F f c t :
  reads st F f c t -> ~ c == t ->
  exists C T,
    solvedC st = XFin C /\ solvedT st = XFin T
    /\ C == F * (f - t) / (c - t) /\ T == F - C.
Proof.
  intros (HF & Hf & Hc & Ht) Hct.
  unfold solvedT, solvedC. cbn [num_sub num_mul num_div xnum_number].
  rewrite HF, Hf, Hc, Ht. cbn [xsub xmul].
  rewrite xdiv_fin by (rewrite Qred_correct; lra).
  cbn [xsub]. do 2 eexists. repeat split.
  - rewrite !Qred_correct. reflexivity.
  - rewrite !Qred_correct. reflexivity.
Qed.


(** The run on finite inputs in the physical ordering, with a positive feed
    flow rate. *)
Lemma balance_ordered st F f c t :
  reads st F f c t -> inputsComplete st = true ->
  0 < F -> t < f -> f < c -> ~ f == 0 ->
  exists newResults C T R,
    balance (alimentacao st) (concentrado st) (rejeito st) = Solved newResults
    /\ res_alimentacao newResults = alimentacao st
    /\ vazao (res_concentrado newResults) = XFin C
    /\ vazao (res_rejeito newResults) = XFin T
    /\ recuperacao newResults = XFin R
    /\ C == F * (f - t) / (c - t) /\ T == F - C
    /\ R == (f - t) * c / ((c - t) * f) * 100.
Proof.
  intros Hr Hc HF Htf Hfc Hf0.
  destruct (solved_finite st F f c t Hr) as (C & T & HC & HT & EC & ET);
    [lra|].
  assert (0 <= C) as HC0.
  { rewrite EC. apply Qle_shift_div_l; [lra|]. nra. }
  assert (C <= F) as HCF.
  { rewrite EC. apply Qle_shift_div_r; [lra|]. nra. }
  rewrite (balance_complete st Hc), HC, HT.
  cbn [num_lt num_of_Z xnum_number]. unfold xof_Z.
  replace (xlt (XFin C) (XFin (inject_Z 0))) with false
    by (symmetry; apply xlt_fin_false; exact HC0).
  replace (xlt (XFin T) (XFin (inject_Z 0))) with false
    by (symmetry; apply xlt_fin_false; rewrite ET; unfold inject_Z; lra).
  cbn [orb]. destruct Hr as (HF' & Hf' & Hc' & Ht').
  rewrite HF', Hf', Hc'. cbn [num_mul num_div xnum_number xmul].
  rewrite (xdiv_fin (Qred (C * c))) by (rewrite Qred_correct; nra).
  cbn [xmul].
  eexists. exists C, T. eexists. split; [reflexivity|].
  cbn [res_alimentacao res_concentrado res_rejeito vazao recuperacao].
  do 4 (split; [reflexivity|]). split; [exact EC|]. split; [exact ET|].
  rewrite !Qred_correct, EC. unfold inject_Z. field. split; lra.
Qed.

End ExactBalance.

Section ExactBalanceClaims.

Import Exact Binary64 App.










(** C9 (amended). For the iron ore example of [loadExample] (feed 100 t/h
    at 35.5 %, concentrate at 68.2 %, tailings at 8.5 %) the run gives a
    concentrate flow rate of 9000/199 = 45.23 t/h, a tailings flow rate of
    10900/199 = 54.77 t/h, a recovery of 86.89 % and a concentration ratio
    of 1.92, each to the two decimals shown; so does it in binary64. *)
Theorem iron_ore_example :
  (exists newResults,
     results (calculateBalance (@ironOre xnum _)) = Some newResults
     /\ vazao (res_concentrado newResults) = XFin (9000 # 199)
     /\ vazao (res_rejeito newResults) = XFin (10900 # 199)
     /\ near (5 # 1000) (vazao (res_concentrado newResults)) (4523 # 100)
     /\ near (5 # 1000) (vazao (res_rejeito newResults)) (5477 # 100)
     /\ near (5 # 1000) (recuperacao newResults) (8689 # 100)
     /\ near (5 # 1000) (razaoConcentracao newResults) (192 # 100))
  /\ (exists newResults,
        results (calculateBalance (@ironOre float _))
        = Some newResults
        /\ vazao (res_concentrado newResults) = 45.226130653266331%float
        /\ vazao (res_rejeito newResults) = 54.773869346733669%float
        /\ recuperacao newResults = 86.885129874725749%float
        /\ fnear 0.005 (vazao (res_concentrado newResults)) 45.23 = true
        /\ fnear 0.005 (vazao (res_rejeito newResults)) 54.77 = true
        /\ fnear 0.005 (recuperacao newResults) 86.89 = true
        /\ fnear 0.005 (razaoConcentracao newResults) 1.92 = true).
Proof.
  split.
  - eexists. split; [vm_compute; reflexivity|].
    cbn [res_concentrado res_rejeito vazao recuperacao razaoConcentracao near].
    repeat split; try (apply Qle_bool_iff; vm_compute; reflexivity).
  - eexists. split; [vm_compute; reflexivity|].
    repeat split; vm_compute; reflexivity.
Qed.

(** C9, as stated, fails: the concentrate flow rate, the tailings flow rate
    and the recovery of the iron ore example are further than 0.05 from
    45.15, 54.85 and 86.65. *)
Lemma iron_ore_example_is_not_as_stated :
  (exists newResults,
     results (calculateBalance (@ironOre xnum _)) = Some newResults
     /\ ~ near (5 # 100) (vazao (res_concentrado newResults)) (4515 # 100)
     /\ ~ near (5 # 100) (vazao (res_rejeito newResults)) (5485 # 100)
     /\ ~ near (5 # 100) (recuperacao newResults) (8665 # 100))
  /\ (exists newResults,
        results (calculateBalance (@ironOre float _))
        = Some newResults
        /\ fnear 0.05 (vazao (res_concentrado newResults)) 45.15 = false
        /\ fnear 0.05 (vazao (res_rejeito newResults)) 54.85 = false
        /\ fnear 0.05 (recuperacao newResults) 86.65 = false).
Proof.
  split.
  - eexists. split; [vm_compute; reflexivity|].
    cbn [res_concentrado res_rejeito vazao recuperacao near].
    repeat split; intro Hn; apply Qle_bool_iff in Hn; vm_compute in Hn;
      discriminate.
  - eexists. split; [vm_compute; reflexivity|].
    repeat split; vm_compute; reflexivity.
Qed.

End ExactBalanceClaims.

(** ** The order on exact numbers *)

Section ExactOrder.

Import Exact.

Lemma xle_refl_of_le (a b : xnum) : xle a b = true -> xle a a = true.
Proof.
  destruct a as [|s|p]; simpl; try discriminate.
  - intros _. destruct s; reflexivity.
  - intros _. apply Qle_bool_iff. apply Qle_refl.
Qed.

Ltac split_signs :=
  repeat match goal with s : bool |- _ => destruct s end;
  simpl; try congruence.

Lemma xle_lt_trans (a b c : xnum) :
  xle a b = true -> xlt b c = true -> xle a c = true.
Proof.
  destruct a as [|sa|p], b as [|sb|q], c as [|sc|r]; simpl;
    try discriminate; try solve [split_signs].
  rewrite negb_true_iff, <- not_true_iff_false, !Qle_bool_iff.
  intros H1 H2. apply Qnot_le_lt in H2. lra.
Qed.

Lemma xle_of_not_lt (a b ca cb : xnum) :
  xlt a b = false -> xle a ca = true -> xle b cb = true -> xle b a = true.
Proof.
  destruct a as [|sa|p], b as [|sb|q]; simpl; try discriminate;
    try solve [split_signs].
  rewrite negb_false_iff. auto.
Qed.

End ExactOrder.

(** ** The grid search in exact arithmetic *)

Section ExactOptimize.

Import Exact Binary64 App.

Lemma candidates_counted :
  counters 17 (fun conc : xnum => num_le conc (num_of_Z 40))
    (fun conc => num_add conc (num_of_Z 2)) (num_of_Z 10)
  = Some candidates.
Proof. vm_compute. reflexivity. Qed.

Lemma optimizeParameters_exact (st : AppState xnum) (fuel : nat) :
  (17 <= fuel)%nat ->
  optimizeParameters fuel st = Some (optimizeOver st candidates).
Proof.
  intro Hf. apply optimizeParameters_over.
  apply (counters_more_fuel _ _ 17); [exact candidates_counted | exact Hf].
Qed.

(** In both carriers the counter of the loop stops after 16 turns; the
    feed, concentrate and tailings of the iron ore example after the grid
    search. *)
Lemma optimizer_changes_only_the_feed_assay_iron_ore :
  (exists st',
     optimizeParameters 17 (@ironOre xnum _) = Some st'
     /\ vazao (alimentacao st') = vazao (alimentacao (@ironOre xnum _))
     /\ densidade (alimentacao st') = densidade (alimentacao (@ironOre xnum _))
     /\ concentrado st' = concentrado ironOre
     /\ rejeito st' = rejeito ironOre)
  /\ (exists st',
        optimizeParameters 17 (@ironOre float _) = Some st'
        /\ vazao (alimentacao st') = vazao (alimentacao (@ironOre float _))
        /\ densidade (alimentacao st')
           = densidade (alimentacao (@ironOre float _))
        /\ concentrado st' = concentrado ironOre
        /\ rejeito st' = rejeito ironOre).
Proof.
  split.
  - apply (optimizer_changes_only_the_feed_assay ironOre 17 candidates).
    exact candidates_counted.
  - apply (optimizer_changes_only_the_feed_assay ironOre 17 candidates).
    vm_compute. reflexivity.
Defined.

(** In the physical ordering the recovery of a positive candidate is
    positive, or NaN when the feed flow rate is 0 or a value is not finite. *)
Lemma recovery_positive_finite (F c t q : Q) :
  0 < q -> q < c -> t < q ->
  let r :=
    xmul (xdiv (xmul (xdiv (xmul (XFin F) (xsub (XFin q) (XFin t)))
                           (xsub (XFin c) (XFin t)))
                     (XFin c))
               (xmul (XFin F) (XFin q)))
         (xof_Z 100) in
  r = XNaN \/ xlt (xof_Z 0) r = true.
Proof.
  intros Hq Hc Ht. cbn [xsub xmul].
  assert (~ Qred (c - t) == 0) as Hct by (rewrite Qred_correct; lra).
  rewrite (xdiv_fin _ _ Hct). cbn [xmul].
  destruct (Qeq_dec F 0) as [HF|HF].
  - left. unfold xdiv.
    assert (Qzero_b (Qred (F * q)) = true) as ->
      by (apply Qzero_b_true; rewrite Qred_correct, HF; ring).
    assert (Qzero_b (Qred (Qred (Qred (F * Qred (q - t)) / Qred (c - t))
                           * c)) = true) as ->.
    { apply Qzero_b_true. rewrite !Qred_correct, HF. field. lra. }
    reflexivity.
  - right.
    rewrite xdiv_fin by (rewrite Qred_correct; nra).
    cbn [xmul xof_Z]. apply xlt_fin. rewrite !Qred_correct.
    unfold inject_Z.
    assert (F * (q - t) / (c - t) * c / (F * q)
            == (q - t) * c / ((c - t) * q)) as ->
      by (field; repeat split; lra).
    assert (0 < (q - t) * c / ((c - t) * q))
      by (apply Qlt_shift_div_l; nra).
    lra.
Qed.

Lemma candidateRecovery_positive (st : AppState xnum) (q : Q) :
  0 < q ->
  candidateOrdered st (XFin q) = true ->
  candidateRecovery st (XFin q) = XNaN
  \/ xlt (xof_Z 0) (candidateRecovery st (XFin q)) = true.
Proof.
  intro Hq. unfold candidateOrdered, candidateRecovery.
  generalize (num_min (concentracao (concentrado st))
                      (minGrade (optimizationParams st))).
  generalize (vazao (alimentacao st)).
  generalize (concentracao (rejeito st)).
  intros t F c. cbn [num_lt num_sub num_mul num_div num_of_Z xnum_number].
  intro Hord. apply andb_true_iff in Hord. destruct Hord as [Hc Ht].
  destruct c as [|sc|c]; try discriminate;
  destruct t as [|st'|t]; try discriminate;
  destruct F as [|sF|F]; auto;
  try (apply recovery_positive_finite;
       [exact Hq | apply xlt_fin; exact Hc | apply xlt_fin; exact Ht]).
  all: simpl in Hc, Ht; try apply negb_true_iff in Hc; subst;
    repeat (cbn [xsub xmul xdiv Bool.eqb negb xorb];
            match goal with
            | |- context [if ?b then _ else _] => destruct b
            end);
    cbn [xsub xmul xdiv Bool.eqb negb xorb]; auto.
Qed.


Lemma candidates_positive (x : xnum) :
  In x candidates -> exists q, x = XFin q /\ 0 < q.
Proof.
  unfold candidates. cbn [map num_of_Z xnum_number xof_Z In].
  intro Hin.
  repeat (destruct Hin as [<-|Hin];
          [eexists; split; [reflexivity|reflexivity]|]).
  contradiction.
Qed.

Lemma optimizeStep_best (st : AppState xnum) done best (q : Q) :
  0 < q ->
  bestSoFar st done best ->
  bestSoFar st (done ++ [XFin q]) (optimizeStep st (XFin q) best).
Proof.
  intros Hq Hinv. destruct best as [bp br].
  unfold optimizeStep, bestSoFar in *. cbn [fst snd] in *.
  set (cap := num_add (targetRecovery (optimizationParams st)) (num_of_Z 5)).
  assert (eligible st (XFin q)
          = candidateOrdered st (XFin q)
            && xle (candidateRecovery st (XFin q)) cap) as Hel by reflexivity.
  cbn [num_lt num_le xnum_number] in *.
  destruct (candidateOrdered st (XFin q)) eqn:Hord.
  - destruct (candidateRecovery_positive st q Hq Hord) as [Hnan|Hpos].
    + (* NaN compares false: the candidate is skipped and is not eligible *)
      rewrite Hnan in *. cbn [xlt xle andb] in *.
      replace (xlt br XNaN) with false by (destruct br; reflexivity).
      cbn [andb fst snd].
      destruct Hinv as [(Hbr & Hbp & Hno)|(x & Hx & Hex & Hbp & Hbr & Hmax)].
      * left. do 2 (split; [auto|]).
        intros y Hy. apply in_app_or in Hy. destruct Hy as [Hy|[<-|[]]]; auto.
      * right. exists x. split; [apply in_or_app; left; exact Hx|].
        do 3 (split; [auto|]).
        intros y Hy Hey. apply in_app_or in Hy.
        destruct Hy as [Hy|[<-|[]]]; [auto|congruence].
    + destruct (xle (candidateRecovery st (XFin q)) cap) eqn:Hcap.
      * (* an eligible candidate *)
        cbn [andb] in Hel.
        destruct Hinv as [(Hbr & Hbp & Hno)|(x & Hx & Hex & Hbp & Hbr & Hmax)].
        -- rewrite Hbr, Hpos. cbn [andb fst snd]. right. exists (XFin q).
           split; [apply in_or_app; right; apply in_eq|].
           do 3 (split; [auto|]).
           intros y Hy Hey. apply in_app_or in Hy.
           destruct Hy as [Hy|[<-|[]]].
           ++ rewrite (Hno y Hy) in Hey. discriminate.
           ++ apply (xle_refl_of_le _ cap). exact Hcap.
        -- assert (xle (candidateRecovery st x) cap = true) as Hxcap.
           { unfold eligible in Hex. apply andb_true_iff in Hex.
             exact (proj2 Hex). }
           rewrite Hbr.
           destruct (xlt (candidateRecovery st x) (candidateRecovery st (XFin q)))
             eqn:Hlt; cbn [andb fst snd]; right.
           ++ exists (XFin q).
              split; [apply in_or_app; right; apply in_eq|].
              do 3 (split; [auto|]).
              intros y Hy Hey. apply in_app_or in Hy.
              destruct Hy as [Hy|[<-|[]]].
              ** apply (xle_lt_trans _ (candidateRecovery st x));
                   [apply Hmax; assumption | exact Hlt].
              ** apply (xle_refl_of_le _ cap). exact Hcap.
           ++ exists x. split; [apply in_or_app; left; exact Hx|].
              do 3 (split; [auto|]).
              intros y Hy Hey. apply in_app_or in Hy.
              destruct Hy as [Hy|[<-|[]]]; [auto|].
              apply (xle_of_not_lt _ _ cap cap); assumption.
      * (* above the cap: skipped, and not eligible *)
        rewrite andb_false_r. cbn [andb] in Hel.
        destruct Hinv as [(Hbr & Hbp & Hno)|(x & Hx & Hex & Hbp & Hbr & Hmax)].
        -- left. do 2 (split; [auto|]).
           intros y Hy. apply in_app_or in Hy.
           destruct Hy as [Hy|[<-|[]]]; auto.
        -- right. exists x. split; [apply in_or_app; left; exact Hx|].
        do 3 (split; [auto|]).
           intros y Hy Hey. apply in_app_or in Hy.
           destruct Hy as [Hy|[<-|[]]]; [auto|congruence].
  - (* out of the ordering: skipped, and not eligible *)
    cbn [andb] in Hel.
    destruct Hinv as [(Hbr & Hbp & Hno)|(x & Hx & Hex & Hbp & Hbr & Hmax)].
    + left. do 2 (split; [auto|]).
      intros y Hy. apply in_app_or in Hy. destruct Hy as [Hy|[<-|[]]]; auto.
    + right. exists x. split; [apply in_or_app; left; exact Hx|].
        do 3 (split; [auto|]).
      intros y Hy Hey. apply in_app_or in Hy.
      destruct Hy as [Hy|[<-|[]]]; [auto|congruence].
Qed.

Lemma optimize_fold_best (st : AppState xnum) :
  forall l done best,
    (forall x, In x l -> exists q, x = XFin q /\ 0 < q) ->
    bestSoFar st done best ->
    bestSoFar st (done ++ l)
      (fold_left (fun b c => optimizeStep st c b) l best).
Proof.
  induction l as [|c l IH]; intros done best Hpos Hinv.
  - rewrite app_nil_r. exact Hinv.
  - cbn [fold_left].
    replace (done ++ c :: l) with ((done ++ [c]) ++ l)
      by (rewrite <- app_assoc; reflexivity).
    apply IH; [intros x Hx; apply Hpos; right; exact Hx|].
    destruct (Hpos c (in_eq _ _)) as (q & -> & Hq).
    apply optimizeStep_best; assumption.
Qed.


(** The ordering test of the loop on finite values: the concentrate assay
    is clamped to the minimum grade. *)
Lemma candidateOrdered_clamped (st : AppState xnum) (c g t x : Q) :
  concentracao (concentrado st) = XFin c ->
  minGrade (optimizationParams st) = XFin g ->
  concentracao (rejeito st) = XFin t ->
  (candidateOrdered st (XFin x) = true <-> x < Qmin c g /\ t < x).
Proof.
  intros Hc Hg Ht. unfold candidateOrdered.
  rewrite Hc, Hg, Ht. cbn [num_min num_lt xnum_number xmin].
  rewrite andb_true_iff.
  destruct (xlt (XFin g) (XFin c)) eqn:E.
  - apply xlt_fin in E. rewrite !xlt_fin, Q.min_r by lra. reflexivity.
  - apply xlt_fin_false in E. rewrite !xlt_fin, Q.min_l by lra. reflexivity.
Qed.



End ExactOptimize.

(** ** Examples of failed runs and of a long session *)

Section SessionExamples.

Import Exact Binary64 App.

(** The poor concentrate example: [C] is 5400/23 and [T] is negative. *)
Lemma poor_concentrate_is_rejected :
  balance (alimentacao (@poorConcentrate xnum _)) (concentrado poorConcentrate)
          (rejeito poorConcentrate) = Rejected [nonPhysical]
  /\ calculateBalance (@poorConcentrate xnum _)
     = setErrors [nonPhysical] poorConcentrate
  /\ results (calculateBalance (@poorConcentrate float _)) = None
  /\ errors (calculateBalance (@poorConcentrate float _)) = [nonPhysical].
Proof.
  destruct (failed_solve_replaces_only_errors (@poorConcentrate xnum _))
    as (Hneg & Hfail & _).
  assert (balance (alimentacao (@poorConcentrate xnum _))
                  (concentrado poorConcentrate) (rejeito poorConcentrate)
          = Rejected [nonPhysical]) as Hb
    by (apply Hneg; vm_compute; reflexivity).
  split; [exact Hb|]. split; [exact (proj1 (proj2 (Hfail _ Hb)))|].
  split; vm_compute; reflexivity.
Defined.

Lemma calculateBalance_keeps_inputs {N : Type} `{JsNumber N} (st : AppState N) :
  alimentacao (calculateBalance st) = alimentacao st
  /\ concentrado (calculateBalance st) = concentrado st
  /\ rejeito (calculateBalance st) = rejeito st.
Proof.
  unfold calculateBalance.
  destruct (balance (alimentacao st) (concentrado st) (rejeito st));
    repeat split.
Qed.

(** The same inputs solved [n] times in a row. *)
Lemma session_repeat {N : Type} `{JsNumber N} (n : nat) :
  forall (st : AppState N) newResults,
    balance (alimentacao st) (concentrado st) (rejeito st) = Solved newResults ->
    session st (repeat newResults n) (Nat.iter n calculateBalance st).
Proof.
  induction n as [|n IH]; intros st r Hb.
  - apply session_end.
  - rewrite Nat.iter_succ_r. cbn [repeat].
    apply (session_solved st r); [exact Hb|].
    apply IH. destruct (calculateBalance_keeps_inputs st) as (-> & -> & ->).
    exact Hb.
Qed.

(** The iron ore example solved 21 times from the initial state: the history
    holds 20 entries, those of the 2nd to the 21st run. *)
Lemma history_after_21_solves :
  exists newResults,
    balance (alimentacao (@ironOre xnum _)) (concentrado ironOre)
            (rejeito ironOre) = Solved newResults
    /\ simulationHistory (Nat.iter 21 calculateBalance ironOre)
       = repeat newResults 20
    /\ (List.length (simulationHistory (Nat.iter 21 calculateBalance
                                          (@ironOre xnum _))) <= 20)%nat.
Proof.
  destruct (balance (alimentacao (@ironOre xnum _)) (concentrado ironOre)
                    (rejeito ironOre)) as [errs|r] eqn:Hb;
    [vm_compute in Hb; discriminate|].
  exists r. split; [reflexivity|].
  destruct (history_keeps_last_20_solves ironOre (repeat r 21)
              (Nat.iter 21 calculateBalance ironOre)
              (session_repeat 21 ironOre r Hb) (Nat.le_0_l 20))
    as (_ & Hlen & Hrest).
  split; [|exact Hlen].
  exact (proj1 (Hrest r (repeat r 20) eq_refl (repeat_length r 20))).
Defined.

End SessionExamples.

(** ** The margin of [EconomicAnalysis] at zero revenue *)

Section ExactEconomicAnalysis.

Import Exact Binary64.




End ExactEconomicAnalysis.

(** ** The search for the internal rate of return *)

Section ExactDcf.

Import Exact App.

Lemma Qfloor_succ (a : Q) : (Qfloor a + 1 <= Qfloor (a + inject_Z 1))%Z.
Proof.
  rewrite <- (Qfloor_Z (Qfloor a + 1)). apply Qfloor_resp_le.
  rewrite inject_Z_plus. pose proof (Qfloor_le a). lra.
Qed.

(** The loop over the years ends when [vidaUtil] is finite. *)
Lemma years_counted (v : Q) :
  forall fuel a,
    (Z.to_nat (Qfloor v - Qfloor a + 1) < fuel)%nat ->
    exists years,
      counters fuel (fun ano : xnum => num_le ano (XFin v))
        (fun ano => num_add ano (num_of_Z 1)) (XFin a) = Some years.
Proof.
  induction fuel as [|fuel IH]; intros a Hm; [lia|].
  cbn [counters num_le num_add num_of_Z xnum_number].
  destruct (xle (XFin a) (XFin v)) eqn:E; [|eexists; reflexivity].
  apply xle_fin in E. cbn [xadd xof_Z].
  destruct (IH (Qred (a + inject_Z 1))) as [l Hl].
  - rewrite (Qfloor_comp _ _ (Qred_correct _)).
    pose proof (Qfloor_succ a). pose proof (Qfloor_resp_le a v E). lia.
  - cbn [num_le num_add num_of_Z xnum_number xof_Z] in Hl. rewrite Hl.
    eexists; reflexivity.
Qed.

Lemma vplAt_total (fuel : nat) (ed : EconomicData xnum) (fl taxa : xnum) (v : Q) :
  vidaUtil ed = XFin v ->
  (Z.to_nat (Qfloor v) < fuel)%nat ->
  vplAt fuel ed fl taxa <> None.
Proof.
  intros Hv Hf. unfold vplAt. rewrite Hv.
  destruct (years_counted v fuel (inject_Z 1)) as [years Hy].
  - rewrite Qfloor_Z. replace (Qfloor v - 1 + 1)%Z with (Qfloor v) by lia.
    exact Hf.
  - rewrite (for_loop_counters _ _ _ fuel _ years _ Hy), run_body_fold.
    discriminate.
Qed.

Lemma rates_counted :
  counters 992 (fun taxa : xnum => num_le taxa (num_of_Z 100))
    (fun taxa => num_add taxa (num_lit 1 1)) (num_of_Z 1)
  = Some rates.
Proof. vm_compute. reflexivity. Qed.

Lemma tirLoop_find (fuel : nat) (ed : EconomicData xnum) (fl : xnum) (v : Q) :
  vidaUtil ed = XFin v ->
  (991 < fuel)%nat -> (Z.to_nat (Qfloor v) < fuel)%nat ->
  tirLoop fuel ed fl
  = Some match find (crossing fuel ed fl) rates with
         | Some taxa => xsub taxa (XFin (1 # 10))
         | None => xof_Z 0
         end.
Proof.
  intros Hv H1 H2. unfold tirLoop.
  rewrite (for_loop_counters _ _ _ fuel _ rates)
    by (apply (counters_more_fuel _ _ 992); [exact rates_counted | lia]).
  apply (run_body_find (vplAt fuel ed fl)
           (fun vplTeste => xle vplTeste (xof_Z 0))
           (fun taxa => xsub taxa (XFin (1 # 10)))).
  intros taxa _. apply (vplAt_total fuel ed fl taxa v); assumption.
Qed.




End ExactDcf.

(** * Further properties *)

(** ** The mass balance *)

Section BalanceMore.

Import Exact Binary64 App.

Lemma Solved_inj (a b : BalanceResults xnum) : Solved a = Solved b -> a = b.
Proof. intro E. injection E. auto. Qed.

Lemma balance_finite st F f c t :
  reads st F f c t -> densitiesGiven st ->
  ~ F == 0 -> ~ f == 0 -> ~ c == 0 -> ~ t == 0 -> ~ c == t ->
  exists C T,
    solvedC st = XFin C /\ solvedT st = XFin T
    /\ C * (c - t) == F * (f - t) /\ T == F - C
    /\ balance (alimentacao st) (concentrado st) (rejeito st)
       = if Qneg_b C || Qneg_b T
         then Rejected [nonPhysical]
         else
           Solved
             {| res_alimentacao := alimentacao st;
                res_concentrado :=
                  {| vazao := XFin C; concentracao := XFin c;
                     densidade := densidade (concentrado st) |};
                res_rejeito :=
                  {| vazao := XFin T; concentracao := XFin t;
                     densidade := densidade (rejeito st) |};
                recuperacao :=
                  XFin (Qred (Qred (Qred (C * c) / Qred (F * f))
                              * inject_Z 100));
                razaoConcentracao := XFin (Qred (c / f));
                eficienciaSeparacao :=
                  xdiv (XFin (Qred (Qred (Qred (Qred (C * c) / Qred (F * f))
                                          * inject_Z 100)
                                    * Qred (c - f))))
                       (XFin (Qred (c * Qred (inject_Z 100 - f)))) |}.
Proof.
  intros Hr Hd nF nf nc nt nct.
  assert (inputsComplete st = true) as Hin
    by (apply (inputsComplete_finite st F f c t); assumption).
  destruct (solved_finite st F f c t Hr nct) as (C & T & HC & HT & EC & ET).
  exists C, T. do 2 (split; [assumption|]).
  split; [rewrite EC; field; lra|]. split; [exact ET|].
  rewrite (balance_complete st Hin), HC, HT.
  destruct Hr as (HF' & Hf' & Hc' & Ht'). rewrite HF', Hf', Hc', Ht'.
  cbn [num_lt num_sub num_mul num_div num_of_Z xnum_number xof_Z xlt
       xsub xmul].
  assert (~ F * f == 0) as nFf
    by (intro E; apply Qmult_integral in E; tauto).
  rewrite (xdiv_fin (Qred (C * c))) by (rewrite Qred_correct; exact nFf).
  rewrite (xdiv_fin c) by exact nf.
  cbn [xmul]. reflexivity.
Qed.








End BalanceMore.

(** ** Validation *)

Section ValidationMore.

Context {N : Type} `{JsNumber N}.
Import App.
Local Open Scope js_scope.

(** X4. When an input is missing (0 or NaN where a value is required),
    [calculateBalance] reports every incomplete stream, not the first one
    only: the messages for feed, concentrate and tailings, in this order,
    each present exactly when one of the required fields of its stream is
    missing.  The flow rate fields of concentrate and tailings are not
    required. *)
Theorem validation_reports_every_incomplete_stream (st : AppState N) :
  inputsComplete st = false ->
  balance (alimentacao st) (concentrado st) (rejeito st)
  = Rejected
      ((if (! vazao (alimentacao st)) || (! concentracao (alimentacao st))
           || (! densidade (alimentacao st))
        then ["Dados de alimentação incompletos"] else [])
       ++ (if (! concentracao (concentrado st)) || (! densidade (concentrado st))
           then ["Dados de concentrado incompletos"] else [])
       ++ (if (! concentracao (rejeito st)) || (! densidade (rejeito st))
           then ["Dados de rejeito incompletos"] else [])).
Proof.
  unfold inputsComplete, balance, push_if.
  destruct ((! vazao (alimentacao st)) || (! concentracao (alimentacao st))
            || (! densidade (alimentacao st)));
  destruct ((! concentracao (concentrado st)) || (! densidade (concentrado st)));
  destruct ((! concentracao (rejeito st)) || (! densidade (rejeito st)));
  cbn; intro E; first [discriminate E | reflexivity].
Qed.

End ValidationMore.

Section ValidationExamples.

Import Exact Binary64 App.

(** The form after [resetForm] gives all three messages; the iron ore
    example with a tailings assay of 0 gives the last one only. *)
Lemma validation_of_the_empty_form :
  (forall st : AppState xnum,
     balance (alimentacao (resetForm st)) (concentrado (resetForm st))
             (rejeito (resetForm st))
     = Rejected ["Dados de alimentação incompletos";
                 "Dados de concentrado incompletos";
                 "Dados de rejeito incompletos"])
  /\ balance (alimentacao (@ironOre xnum _)) (concentrado ironOre)
             {| vazao := XFin 0; concentracao := XFin 0;
                densidade := XFin (29 # 10) |}
     = Rejected ["Dados de rejeito incompletos"].
Proof.
  split.
  - intro st.
    exact (validation_reports_every_incomplete_stream (resetForm st) eq_refl).
  - exact (validation_reports_every_incomplete_stream
             (setRejeito {| vazao := XFin 0; concentracao := XFin 0;
                            densidade := XFin (29 # 10) |} ironOre) eq_refl).
Defined.

End ValidationExamples.

(** ** The grid search, run again and followed by a solve *)

Section OptimizeAgain.

Context {N : Type} `{JsNumber N} `{JsPow N} `{JsFixed N}.
Import App.
Local Open Scope js_scope.

(** The loop reads the state through the feed flow rate, the concentrate
    and tailings streams and the parameters only. *)
Lemma optimizeStep_reads (st st' : AppState N) conc best :
  vazao (alimentacao st') = vazao (alimentacao st) ->
  concentrado st' = concentrado st ->
  rejeito st' = rejeito st ->
  optimizationParams st' = optimizationParams st ->
  optimizeStep st' conc best = optimizeStep st conc best.
Proof.
  intros Hv Hc Hr Hp.
  unfold optimizeStep, candidateOrdered, candidateRecovery.
  rewrite Hv, Hc, Hr, Hp. reflexivity.
Qed.

(** What the loop does to [bestParams] does not depend on [bestParams]. *)
Lemma optimize_fold_choice (st : AppState N) :
  forall l bestRecovery,
  exists chosen bestRecovery',
    forall bestParams,
      fold_left (fun b c => optimizeStep st c b) l (bestParams, bestRecovery)
      = (withAssay chosen bestParams, bestRecovery').
Proof.
  assert (forall c bp br,
             optimizeStep st c (bp, br)
             = if candidateOrdered st c
                  && ((candidateRecovery st c >? br)
                      && (candidateRecovery st c
                          <=? targetRecovery (optimizationParams st)
                              + num_of_Z 5))
               then (withAssay (Some c) bp, candidateRecovery st c)
               else (bp, br)) as Hstep.
  { intros c bp br. unfold optimizeStep.
    destruct (candidateOrdered st c); [|reflexivity].
    cbn [andb]. destruct (_ && _); reflexivity. }
  induction l as [|c l IH]; intro br.
  - exists None, br. reflexivity.
  - cbn [fold_left].
    destruct (candidateOrdered st c
              && ((candidateRecovery st c >? br)
                  && (candidateRecovery st c
                      <=? targetRecovery (optimizationParams st)
                          + num_of_Z 5))) eqn:E.
    + destruct (IH (candidateRecovery st c)) as (ch & br' & Hfold).
      exists (match ch with Some x => Some x | None => Some c end), br'.
      intro bp. rewrite Hstep, E, Hfold. destruct ch; reflexivity.
    + destruct (IH br) as (ch & br' & Hfold).
      exists ch, br'. intro bp. rewrite Hstep, E. apply Hfold.
Qed.

(** X5. Running [optimizeParameters] on the state it has just produced
    changes nothing: the grid search does not read the feed assay it
    replaces, so it picks the same candidate again. *)
Theorem optimizer_is_idempotent (st : AppState N) (fuel : nat) (l : list N) :
  counters fuel (fun conc => conc <=? num_of_Z 40)
    (fun conc => conc + num_of_Z 2) (num_of_Z 10) = Some l ->
  exists st',
    optimizeParameters fuel st = Some st'
    /\ optimizeParameters fuel st' = Some st'.
Proof.
  intro Hc. exists (optimizeOver st l).
  rewrite !(optimizeParameters_over fuel _ l Hc). split; [reflexivity|].
  f_equal.
  destruct (optimize_fold_choice st l (num_of_Z 0)) as (ch & br' & Hfold).
  assert (forall l' best,
             fold_left (fun b c => optimizeStep (optimizeOver st l) c b) l' best
             = fold_left (fun b c => optimizeStep st c b) l' best)
    as Hsame.
  { destruct (optimizeOver_frame st l) as (Hv & _ & Hco & Hre).
    induction l' as [|c l' IH]; intro best; [reflexivity|].
    cbn [fold_left].
    rewrite (optimizeStep_reads st (optimizeOver st l) c best
               Hv Hco Hre eq_refl).
    apply IH. }
  unfold optimizeOver at 1. rewrite Hsame.
  unfold optimizeOver. rewrite !Hfold. cbn [fst alimentacao setErrors
    setAlimentacao concentrado rejeito results errors economicData
    economicResults optimizationParams simulationHistory circuitType].
  destruct ch; reflexivity.
Qed.

End OptimizeAgain.

Section ExactOptimizeMore.

Import Exact Binary64 App.

Lemma optimizer_is_idempotent_iron_ore :
  (exists st',
     optimizeParameters 17 (@ironOre xnum _) = Some st'
     /\ optimizeParameters 17 st' = Some st')
  /\ (exists st',
        optimizeParameters 17 (@ironOre float _) = Some st'
        /\ optimizeParameters 17 st' = Some st').
Proof.
  split.
  - apply (optimizer_is_idempotent ironOre 17 candidates).
    exact candidates_counted.
  - apply (optimizer_is_idempotent ironOre 17 candidates).
    vm_compute. reflexivity.
Defined.

Lemma stream_eta (a : StreamData xnum) :
  a = {| vazao := vazao a; concentracao := concentracao a;
         densidade := densidade a |}.
Proof. destruct a. reflexivity. Qed.

Lemma optimizeOver_alimentacao (st : AppState xnum) (l : list xnum) :
  alimentacao (optimizeOver st l)
  = fst (fold_left (fun b c => optimizeStep st c b) l
           (alimentacao st, xof_Z 0)).
Proof. reflexivity. Qed.

Lemma optimizeOver_errors (st : AppState xnum) (l : list xnum) :
  errors (optimizeOver st l)
  = [("Otimização concluída! Nova concentração de alimentação: "
      ++ xtoFixed (concentracao (alimentacao (optimizeOver st l))) 2
      ++ "%")%string].
Proof. reflexivity. Qed.

(** Without a finite, non-zero feed flow rate every recovery the loop
    computes is NaN. *)
Lemma candidateRecovery_nan (st : AppState xnum) (q : Q) :
  xfalsy (vazao (alimentacao st)) = true
  \/ xfinite (vazao (alimentacao st)) = false ->
  candidateOrdered st (XFin q) = true ->
  candidateRecovery st (XFin q) = XNaN.
Proof.
  unfold candidateOrdered, candidateRecovery.
  generalize (num_min (concentracao (concentrado st))
                      (minGrade (optimizationParams st))).
  generalize (vazao (alimentacao st)).
  generalize (concentracao (rejeito st)).
  intros t F c HF. cbn [num_lt num_sub num_mul num_div num_of_Z xnum_number].
  intro Hord. apply andb_true_iff in Hord. destruct Hord as [Hc Ht].
  destruct F as [|sF|F]; [reflexivity| |].
  - destruct c as [|sc|c]; try discriminate;
    destruct t as [|st'|t]; try discriminate;
    simpl in Hc, Ht; try apply negb_true_iff in Hc; subst;
    repeat (cbn [xsub xmul xdiv Bool.eqb negb xorb];
            match goal with
            | |- context [if ?b then _ else _] => destruct b
            end);
    cbn [xsub xmul xdiv Bool.eqb negb xorb]; auto.
  - destruct HF as [HF|HF]; [|discriminate]. cbn [xfalsy] in HF.
    assert (forall a, Qzero_b (Qred (F * a)) = true) as Hz
      by (intro a; apply Qzero_b_true; apply Qzero_b_true in HF;
          rewrite Qred_correct, HF; ring).
    destruct c as [|sc|c]; try discriminate;
    destruct t as [|st'|t]; try discriminate;
    simpl in Hc, Ht; try apply negb_true_iff in Hc; subst;
    cbn [xsub xmul xdiv Bool.eqb negb xorb]; rewrite ?HF, ?Hz.
    + reflexivity.
    + reflexivity.
    + reflexivity.
    + destruct (Qzero_b (Qred (c - t))) eqn:Ect; [reflexivity|].
      cbn [xmul xdiv]. rewrite Hz.
      assert (Qzero_b (Qred (Qred (Qred (F * Qred (q - t)) / Qred (c - t))
                             * c)) = true) as ->; [|reflexivity].
      apply Qzero_b_true. apply Qzero_b_true in HF.
      apply Qzero_b_false in Ect.
      rewrite !Qred_correct in *. rewrite HF. field. exact Ect.
Qed.




Lemma recovery_value_finite (F c t q : Q) :
  ~ F == 0 -> 0 < q -> q < c -> t < q ->
  exists R,
    xmul (xdiv (xmul (xdiv (xmul (XFin F) (xsub (XFin q) (XFin t)))
                           (xsub (XFin c) (XFin t)))
                     (XFin c))
               (xmul (XFin F) (XFin q)))
         (xof_Z 100) = XFin R
    /\ R == (q - t) * c / ((c - t) * q) * 100.
Proof.
  intros HF Hq Hc Ht. cbn [xsub xmul].
  rewrite (xdiv_fin _ (Qred (c - t))) by (rewrite Qred_correct; lra).
  cbn [xmul].
  rewrite xdiv_fin by (rewrite Qred_correct; nra).
  cbn [xmul xof_Z]. eexists. split; [reflexivity|].
  rewrite !Qred_correct. unfold inject_Z. field. repeat split; lra.
Qed.

Lemma xle_fin_mono (p q : Q) (cap : xnum) :
  p <= q -> xle (XFin q) cap = true -> xle (XFin p) cap = true.
Proof.
  intro Hpq. destruct cap as [|s|r]; cbn [xle]; auto.
  rewrite !Qle_bool_iff. intro. lra.
Qed.



End ExactOptimizeMore.

(** ** The discounted cash flow *)

Section DcfFrame.

Context {N : Type} `{JsNumber N} `{JsPow N}.
Import App.
Local Open Scope js_scope.

(** The cells [calculateEconomics] writes, for any carrier of the number
    operations. *)
Lemma calculateEconomics_frame (st : AppState N) :
  (economicsMissing st = true ->
   forall fuel,
     calculateEconomics fuel st = Some (setErrors [missingEconomics] st))
  /\ (economicsMissing st = false ->
      forall fuel st',
        calculateEconomics fuel st = Some st' ->
        exists economicResult,
          st' = setEconomicResults (Some economicResult) st).
Proof.
  unfold economicsMissing, calculateEconomics. split.
  - intros Hm fuel. destruct (results st); [|reflexivity].
    rewrite Hm. reflexivity.
  - intros Hm fuel st'. destruct (results st) as [res|]; [|discriminate].
    rewrite Hm.
    destruct (vplAt _ _ _ _); [|discriminate].
    destruct (tirLoop _ _ _); [|discriminate].
    intro E. eexists. injection E as <-. reflexivity.
Qed.

End DcfFrame.

Section ExactDcfMore.

Import Exact App.

Lemma Qred_inject_Z (z : Z) (q : Q) : q == inject_Z z -> Qred q = inject_Z z.
Proof.
  intro E. rewrite (Qred_complete _ _ E). unfold Qred, inject_Z.
  generalize (Z.ggcd_gcd z 1) (Z.ggcd_correct_divisors z 1).
  destruct (Z.ggcd z 1) as (g, (aa, bb)). cbn [fst snd].
  rewrite Z.gcd_1_r. intros -> [Ha Hb]. rewrite Z.mul_1_l in Ha, Hb.
  subst. reflexivity.
Qed.

(** The counter of the loop over the years holds whole numbers. *)
Lemma years_are_whole :
  forall fuel (v : xnum) k years,
    counters fuel (fun ano : xnum => num_le ano v)
      (fun ano => num_add ano (num_of_Z 1)) (XFin (inject_Z k)) = Some years ->
    Forall (fun ano => exists j, (k <= j)%Z /\ ano = XFin (inject_Z j)) years.
Proof.
  induction fuel as [|fuel IH]; intros v k years Hc; [discriminate|].
  cbn [counters] in Hc. destruct (num_le (XFin (inject_Z k)) v).
  - cbn [num_add num_of_Z xnum_number xadd xof_Z] in Hc.
    rewrite (Qred_inject_Z (k + 1)) in Hc
      by (rewrite inject_Z_plus; reflexivity).
    destruct (counters fuel _ _ (XFin (inject_Z (k + 1)))) as [l|] eqn:E;
      [|discriminate].
    injection Hc as <-. constructor.
    + exists k. split; [lia|reflexivity].
    + apply IH in E. eapply Forall_impl; [|exact E].
      intros a (j & Hj & ->). exists j. split; [lia|reflexivity].
  - injection Hc as <-. constructor.
Qed.

(** When [vidaUtil] is the whole number [n], the years are 1, ..., n. *)
Lemma years_up_to (m : nat) :
  forall fuel k,
    (m < fuel)%nat ->
    counters fuel
      (fun ano : xnum => num_le ano (XFin (inject_Z (k + Z.of_nat m - 1))))
      (fun ano => num_add ano (num_of_Z 1)) (XFin (inject_Z k))
    = Some (map (fun i => XFin (inject_Z (k + Z.of_nat i))) (seq 0 m)).
Proof.
  induction m as [|m IH]; intros fuel k Hf;
    (destruct fuel as [|fuel]; [lia|]); cbn [counters].
  - assert (num_le (XFin (inject_Z k)) (XFin (inject_Z (k + Z.of_nat 0 - 1)))
            = false) as ->; [|reflexivity].
    cbn [num_le xnum_number]. apply not_true_iff_false. rewrite xle_fin.
    rewrite <- Zle_Qle. lia.
  - assert (num_le (XFin (inject_Z k))
                   (XFin (inject_Z (k + Z.of_nat (S m) - 1))) = true) as ->.
    { cbn [num_le xnum_number]. rewrite xle_fin, <- Zle_Qle. lia. }
    assert (num_add (XFin (inject_Z k)) (num_of_Z 1)
            = XFin (inject_Z (k + 1))) as ->.
    { cbn [num_add num_of_Z xnum_number xadd xof_Z]. f_equal.
      apply Qred_inject_Z. rewrite inject_Z_plus. reflexivity. }
    replace (k + Z.of_nat (S m) - 1)%Z with (k + 1 + Z.of_nat m - 1)%Z by lia.
    rewrite (IH fuel (k + 1)%Z) by lia.
    cbn [option_map seq map]. rewrite <- seq_shift, map_map.
    do 2 f_equal.
    + f_equal. f_equal. lia.
    + apply map_ext. intro i. do 2 f_equal. lia.
Qed.

(** One discounted term at a positive base and a year that is a whole
    number from 1 on. *)
Lemma discounted_term (fl b : Q) (j : Z) :
  0 < b -> (1 <= j)%Z ->
  xdiv (XFin fl) (xpow (XFin b) (XFin (inject_Z j)))
  = XFin (Qred (fl / Qred (b ^ j))).
Proof.
  intros Hb Hj. unfold xpow. rewrite Qfloor_Z.
  assert (Qeq_bool (inject_Z j) (inject_Z j) = true) as ->
    by (apply Qeq_bool_iff; reflexivity).
  assert ((j =? 0)%Z = false) as -> by (apply Z.eqb_neq; lia).
  assert ((j <? 0)%Z = false) as -> by (apply Z.ltb_ge; lia).
  rewrite andb_false_r. cbn [negb]. apply xdiv_fin.
  rewrite Qred_correct. pose proof (Qpower_0_lt b j Hb). lra.
Qed.

Lemma discount_base (r : Q) :
  xadd (xof_Z 1) (xdiv (XFin r) (xof_Z 100))
  = XFin (Qred (inject_Z 1 + Qred (r / inject_Z 100))).
Proof. reflexivity. Qed.

(** The net present value as a fold over the years. *)
Lemma vplAt_fold (fuel : nat) (ed : EconomicData xnum) (fl taxa : xnum)
  (years : list xnum) :
  counters fuel (fun ano : xnum => num_le ano (vidaUtil ed))
    (fun ano => num_add ano (num_of_Z 1)) (num_of_Z 1) = Some years ->
  vplAt fuel ed fl taxa
  = Some (fold_left
            (fun vpl ano =>
               xadd vpl
                 (xdiv fl (xpow (xadd (xof_Z 1) (xdiv taxa (xof_Z 100))) ano)))
            years (xneg (capex ed))).
Proof.
  intro Hy. unfold vplAt.
  rewrite (for_loop_counters _ _ _ fuel _ years _ Hy), run_body_fold.
  reflexivity.
Qed.

(** With a cash flow that is not positive and a discount rate that is not
    negative, no year adds to the net present value. *)
Lemma fold_nonpositive_flow (fl b : Q) :
  fl <= 0 -> 0 < b ->
  forall years a,
    Forall (fun ano => exists j, (1 <= j)%Z /\ ano = XFin (inject_Z j)) years ->
    exists a',
      fold_left (fun vpl ano => xadd vpl (xdiv (XFin fl) (xpow (XFin b) ano)))
        years (XFin a) = XFin a'
      /\ a' <= a.
Proof.
  intros Hfl Hb. induction years as [|ano years IH]; intros a Hall.
  - exists a. split; [reflexivity|lra].
  - inversion Hall as [|? ? (j & Hj & ->) Hrest]; subst.
    cbn [fold_left]. rewrite (discounted_term fl b j Hb Hj). cbn [xadd].
    destruct (IH (Qred (a + Qred (fl / Qred (b ^ j)))) Hrest) as (a' & -> & Ha).
    exists a'. split; [reflexivity|].
    rewrite !Qred_correct in Ha.
    pose proof (Qpower_0_lt b j Hb) as Hp.
    assert (fl / b ^ j <= 0) by (apply Qle_shift_div_r; [exact Hp|lra]).
    lra.
Qed.

Lemma vplAt_nonpositive_flow (fuel : nat) (ed : EconomicData xnum)
  (cap fl r v : Q) :
  capex ed = XFin cap -> vidaUtil ed = XFin v ->
  fl <= 0 -> 0 <= r ->
  (Z.to_nat (Qfloor v) < fuel)%nat ->
  exists V, vplAt fuel ed (XFin fl) (XFin r) = Some (XFin V) /\ V <= - cap.
Proof.
  intros Hcap Hv Hfl Hr Hf.
  destruct (years_counted v fuel (inject_Z 1)) as [years Hy].
  { rewrite Qfloor_Z. replace (Qfloor v - 1 + 1)%Z with (Qfloor v) by lia.
    exact Hf. }
  pose proof (years_are_whole fuel (XFin v) 1 years Hy) as Hall.
  rewrite (vplAt_fold fuel ed _ _ years) by (rewrite Hv; exact Hy).
  rewrite discount_base, Hcap. cbn [xneg].
  destruct (fold_nonpositive_flow fl
              (Qred (inject_Z 1 + Qred (r / inject_Z 100))) Hfl) with
    (years := years) (a := Qred (- cap)) as (V & -> & HV).
  - rewrite !Qred_correct.
    assert (0 <= r / inject_Z 100)
      by (apply Qle_shift_div_l; [reflexivity|rewrite Qmult_0_l; exact Hr]).
    change (inject_Z 1) with 1. lra.
  - exact Hall.
  - exists V. split; [reflexivity|]. rewrite Qred_correct in HV. exact HV.
Qed.

Lemma rates_start :
  exists rest, rates = XFin 1 :: rest.
Proof. eexists. vm_compute. reflexivity. Qed.





(** At a discount rate of 0 every year adds the whole cash flow. *)
Lemma fold_zero_rate (fl b : Q) :
  b == 1 ->
  forall years a,
    Forall (fun ano => exists j, (1 <= j)%Z /\ ano = XFin (inject_Z j)) years ->
    exists a',
      fold_left (fun vpl ano => xadd vpl (xdiv (XFin fl) (xpow (XFin b) ano)))
        years (XFin a) = XFin a'
      /\ a' == a + fl * inject_Z (Z.of_nat (List.length years)).
Proof.
  intros Hb. assert (0 < b) as Hpos by lra.
  induction years as [|ano years IH]; intros a Hall.
  - exists a. split; [reflexivity|]. cbn [List.length Z.of_nat].
    change (inject_Z 0) with 0. ring.
  - inversion Hall as [|? ? (j & Hj & ->) Hrest]; subst.
    cbn [fold_left]. rewrite (discounted_term fl b j Hpos Hj). cbn [xadd].
    destruct (IH (Qred (a + Qred (fl / Qred (b ^ j)))) Hrest) as (a' & -> & Ha).
    exists a'. split; [reflexivity|].
    rewrite Ha, !Qred_correct, Hb, Qpower_1.
    cbn [List.length]. rewrite Nat2Z.inj_succ. unfold Z.succ.
    rewrite inject_Z_plus. change (inject_Z 1) with 1. field.
Qed.



Lemma xnum_eqb_eq (a b : xnum) : xnum_eqb a b = true -> a = b.
Proof.
  destruct a as [|s|[p1 p2]], b as [|s'|[q1 q2]]; cbn; try discriminate.
  - reflexivity.
  - intro E. apply Bool.eqb_prop in E. congruence.
  - intro E. apply andb_true_iff in E as [E1 E2].
    apply Z.eqb_eq in E1. apply Pos.eqb_eq in E2. congruence.
Qed.

(** In a list that goes up in steps of 0.1, the first element that passes a
    test is the head, or comes 0.1 after an element that fails it. *)
Lemma find_steps (p : xnum -> bool) :
  forall l x,
    stepsOfTenth l = true ->
    find p l = Some x ->
    hd_error l = Some x
    \/ (In (xsub x (XFin (1 # 10))) l
        /\ p (xsub x (XFin (1 # 10))) = false
        /\ xadd (xsub x (XFin (1 # 10))) (XFin (1 # 10)) = x).
Proof.
  induction l as [|a l IH]; intros x Hs Hf; [discriminate|].
  cbn [find] in Hf. destruct (p a) eqn:Ea.
  - left. exact Hf.
  - right. destruct l as [|b l]; [discriminate|].
    cbn [stepsOfTenth] in Hs.
    apply andb_true_iff in Hs as [Hs Hrest].
    apply andb_true_iff in Hs as [Hsub Hadd].
    apply xnum_eqb_eq in Hsub, Hadd.
    destruct (IH x Hrest Hf) as [Hhd | (Hin & Hp & Hback)].
    + injection Hhd as <-. rewrite Hsub.
      split; [left; reflexivity|]. split; [exact Ea|exact Hadd].
    + split; [right; exact Hin|]. split; [exact Hp|exact Hback].
Qed.

Lemma rates_steps : stepsOfTenth rates = true.
Proof. vm_compute. reflexivity. Qed.



End ExactDcfMore.

(** ** The yearly accounts of [EconomicAnalysis] *)

Section ExactAccounts.

Import Exact.
Import EconomicAnalysis.

Lemma xdiv_by_literal (p : Q) (z : Z) :
  z <> 0%Z -> xdiv (XFin p) (xof_Z z) = XFin (Qred (p / inject_Z z)).
Proof.
  intro Hz. apply xdiv_fin. intro E. apply Hz.
  unfold Qeq in E. cbn in E. lia.
Qed.





End ExactAccounts.

(** ** The pie chart of the mass split *)

Section ExactPieChart.

Import Exact App.
Import PerformanceCharts.



End ExactPieChart.

(** ** The flowsheet editor *)

Section ListFacts.

Context {A : Type}.

Lemma NoDup_snoc (l : list A) (a : A) :
  NoDup l -> ~ In a l -> NoDup (l ++ [a]).
Proof.
  induction l as [|b l IH]; intros Hnd Hin; cbn.
  - constructor; [intros []|constructor].
  - inversion Hnd as [|? ? Hb Hl]; subst. constructor.
    + rewrite in_app_iff. intros [Hbl | [-> | []]]; [exact (Hb Hbl)|].
      apply Hin. left. reflexivity.
    + apply IH; [exact Hl|]. intro H. apply Hin. right. exact H.
Qed.

End ListFacts.

Section FlowsheetFacts.

Context {N : Type} `{JsNumber N}.
Import Flowsheet.

Lemma digits_of_Z_inj (a b : Z) :
  (0 <= a)%Z -> (0 <= b)%Z -> digits_of_Z a = digits_of_Z b -> a = b.
Proof.
  intros Ha Hb E. unfold digits_of_Z in E.
  assert (forall n, N.to_uint n <> Decimal.Nil) as Hnil.
  { intros [|p]; [discriminate|]. apply DecimalPos.Unsigned.to_uint_nonnil. }
  apply (f_equal DecimalString.NilZero.uint_of_string) in E.
  rewrite !DecimalString.NilZero.usu in E by apply Hnil.
  injection E as E. apply DecimalN.Unsigned.to_uint_inj in E.
  apply Z2N.inj; assumption.
Qed.

(** [saveEquipment] keeps the ids, in their order. *)
Lemma saved_ids (u : Equipment N) (l : list (Equipment N)) :
  map id (map (fun eq => if String.eqb (id eq) (id u) then u else eq) l)
  = map id l.
Proof.
  rewrite map_map. apply map_ext. intro e.
  destruct (String.eqb (id e) (id u)) eqn:E; [|reflexivity].
  apply String.eqb_eq in E. symmetry. exact E.
Qed.

(** [deleteEquipment] leaves no two equal ids where there were none. *)
Lemma deleted_ids (equipmentId : string) (prev : list (Equipment N)) :
  NoDup (map id prev) ->
  NoDup (map id (filter (fun eq => negb (String.eqb (id eq) equipmentId)) prev)).
Proof.
  intro Hnd. induction prev as [|e prev IH]; [constructor|].
  cbn [map] in Hnd. apply NoDup_cons_iff in Hnd as [Hfresh Hrest].
  cbn [filter]. destruct (negb (String.eqb (id e) equipmentId));
    [|exact (IH Hrest)].
  cbn [map]. apply NoDup_cons; [|exact (IH Hrest)].
  intro Hin. apply Hfresh.
  apply in_map_iff in Hin as (e' & He' & Hkept).
  apply filter_In in Hkept as [Hkept _].
  rewrite <- He'. apply in_map. exact Hkept.
Qed.

(** What holds in every state of the editor: the counter is between 1 and
    2^53, no flow line is stored, and, as long as the counter is below
    2^53, every equipment has the id made from a counter value below the
    present one and no two have the same id. *)
Lemma reachable_ids (st : Editor N) :
  reachable st ->
  (1 <= nextEquipmentId st <= 2 ^ 53)%Z
  /\ flowLines st = []
  /\ ((nextEquipmentId st < 2 ^ 53)%Z ->
      Forall (fun e => exists k, (1 <= k < nextEquipmentId st)%Z
                                 /\ id e = ("eq_" ++ digits_of_Z k)%string)
        (equipments st)
      /\ NoDup (map id (equipments st))).
Proof.
  induction 1 as [|st st' Hr IH Hs].
  - cbn [initialEditor nextEquipmentId flowLines equipments map].
    split; [lia|]. split; [reflexivity|]. intros _. split; constructor.
  - destruct IH as (Hn & Hfl & Hids).
    destruct Hs as [st tool|st cx cy l t|st|st cx cy eid|st|st eid|st eid|st
                   |st|st|st v|st upd].
    + split; [exact Hn|]. split; [exact Hfl|exact Hids].
    + unfold addEquipment.
      destruct (equipmentTypeOf (activeTool st)) as [ty|];
        [|split; [exact Hn|]; split; [exact Hfl|exact Hids]].
      cbn [setNextEquipmentId setEquipments nextEquipmentId flowLines
           equipments].
      unfold succId.
      destruct (Z.ltb_spec (nextEquipmentId st) (2 ^ 53)) as [Hlt|Hge].
      * split; [lia|]. split; [exact Hfl|]. intros _.
        destruct (Hids Hlt) as [Hall Hnd]. split.
        -- apply Forall_app. split.
           ++ eapply Forall_impl; [|exact Hall].
              intros e (k & Hk & He). exists k. split; [lia|exact He].
           ++ constructor; [|constructor].
              exists (nextEquipmentId st). split; [lia|reflexivity].
        -- rewrite map_app. cbn [map id]. apply NoDup_snoc; [exact Hnd|].
           intro Hin. apply in_map_iff in Hin as (e & He & Hine).
           rewrite Forall_forall in Hall.
           destruct (Hall e Hine) as (k & Hk & Hid).
           rewrite Hid in He. cbn [String.append] in He.
           injection He as He.
           apply digits_of_Z_inj in He; lia.
      * split; [lia|]. split; [exact Hfl|]. intro Hlt. lia.
    + cbn [clearCanvas setNextEquipmentId setFlowLines setEquipments
           nextEquipmentId flowLines equipments map].
      split; [lia|]. split; [reflexivity|]. intros _. split; constructor.
    + split; [exact Hn|]. split; [exact Hfl|exact Hids].
    + split; [exact Hn|]. split; [exact Hfl|exact Hids].
    + cbn [deleteEquipment hideContextMenu setContextMenu setEquipments
           nextEquipmentId flowLines equipments].
      split; [exact Hn|]. split; [exact Hfl|]. intro Hlt.
      destruct (Hids Hlt) as [Hall Hnd]. split.
      * rewrite Forall_forall in *. intros e He.
        apply filter_In in He. apply Hall. tauto.
      * apply deleted_ids. exact Hnd.
    + unfold editEquipment.
      destruct (find _ (equipments st));
        (split; [exact Hn|]; split; [exact Hfl|exact Hids]).
    + unfold saveEditing.
      destruct (editingEquipment st) as [u|];
        [|split; [exact Hn|]; split; [exact Hfl|exact Hids]].
      cbn [saveEquipment setEditingEquipment setShowEditModal setEquipments
           nextEquipmentId flowLines equipments].
      split; [exact Hn|]. split; [exact Hfl|]. intro Hlt.
      destruct (Hids Hlt) as [Hall Hnd]. split.
      * rewrite Forall_forall in *. intros e He.
        apply in_map_iff in He as (e0 & He0 & Hin).
        destruct (String.eqb (id e0) (id u)) eqn:E.
        -- apply String.eqb_eq in E. subst e.
           destruct (Hall e0 Hin) as (k & Hk & Hid).
           exists k. split; [exact Hk|]. rewrite <- E. exact Hid.
        -- subst e. exact (Hall e0 Hin).
      * rewrite saved_ids. exact Hnd.
    + split; [exact Hn|]. split; [exact Hfl|exact Hids].
    + split; [exact Hn|]. split; [exact Hfl|exact Hids].
    + split; [exact Hn|]. split; [exact Hfl|exact Hids].
    + split; [exact Hn|]. split; [exact Hfl|exact Hids].
Qed.

(** An equipment of a list without two equal ids is the only one of its
    id. *)
Lemma unique_split (l : list (Equipment N)) (e : Equipment N) :
  NoDup (map id l) -> In e l ->
  exists l1 l2,
    l = l1 ++ e :: l2
    /\ Forall (fun e' => String.eqb (id e') (id e) = false) l1
    /\ Forall (fun e' => String.eqb (id e') (id e) = false) l2.
Proof.
  intros Hnd Hin. destruct (in_split e l Hin) as (l1 & l2 & ->).
  exists l1, l2. split; [reflexivity|].
  rewrite map_app in Hnd. cbn [map] in Hnd.
  pose proof (NoDup_remove_2 _ _ _ Hnd) as Hno.
  rewrite in_app_iff in Hno.
  split; apply Forall_forall; intros e' He'; apply String.eqb_neq;
    intro E; apply Hno; [left|right]; apply in_map_iff; exists e'; tauto.
Qed.

Lemma filter_others (e : Equipment N) (l : list (Equipment N)) :
  Forall (fun e' => String.eqb (id e') (id e) = false) l ->
  filter (fun eq => negb (String.eqb (id eq) (id e))) l = l.
Proof.
  induction 1 as [|e' l He' _ IH]; [reflexivity|].
  cbn [filter]. rewrite He'. cbn [negb]. rewrite IH. reflexivity.
Qed.

Lemma save_others (e u : Equipment N) (l : list (Equipment N)) :
  id u = id e ->
  Forall (fun e' => String.eqb (id e') (id e) = false) l ->
  map (fun eq => if String.eqb (id eq) (id u) then u else eq) l = l.
Proof.
  intros Hu. induction 1 as [|e' l He' _ IH]; [reflexivity|].
  cbn [map]. rewrite Hu, He'. rewrite Hu in IH. rewrite IH. reflexivity.
Qed.

Lemma find_others (e : Equipment N) (l1 l2 : list (Equipment N)) :
  Forall (fun e' => String.eqb (id e') (id e) = false) l1 ->
  find (fun eq => String.eqb (id eq) (id e)) (l1 ++ e :: l2) = Some e.
Proof.
  induction 1 as [|e' l He' _ IH]; cbn [app find].
  - rewrite String.eqb_refl. reflexivity.
  - rewrite He'. exact IH.
Qed.

(** X15. In every state the editor can reach with its counter below 2^53,
    no two equipments have the same id, and each id is [eq_] followed by a
    counter value between 1 and the present one, which the next equipment
    will carry. *)
Theorem equipment_ids_are_unique (st : Editor N) :
  reachable st ->
  (nextEquipmentId st < 2 ^ 53)%Z ->
  NoDup (map id (equipments st))
  /\ forall e, In e (equipments st) ->
       exists k, (1 <= k < nextEquipmentId st)%Z
                 /\ id e = ("eq_" ++ digits_of_Z k)%string.
Proof.
  intros Hr Hlt. destruct (reachable_ids st Hr) as (_ & _ & Hids).
  destruct (Hids Hlt) as [Hall Hnd]. split; [exact Hnd|].
  rewrite Forall_forall in Hall. exact Hall.
Qed.

(** X16. No state the editor can reach holds a flow line; and with the
    tool Linha or Seta chosen a click on the canvas changes nothing. *)
Theorem no_flow_line_is_ever_drawn (st : Editor N) :
  reachable st ->
  flowLines st = []
  /\ (activeTool st = "linha" \/ activeTool st = "seta" ->
      forall clientX clientY left top,
        addEquipment clientX clientY left top st = st).
Proof.
  intro Hr. destruct (reachable_ids st Hr) as (_ & Hfl & _).
  split; [exact Hfl|].
  intros [E | E] cx cy l t; unfold addEquipment; rewrite E; reflexivity.
Qed.

(** X17. In a state the editor can reach with its counter below 2^53,
    [deleteEquipment] with the id of an equipment on the canvas removes
    that equipment and no other, keeps the order of the rest, and closes the
    context menu. *)
Theorem delete_removes_that_equipment_only (st : Editor N) (e : Equipment N) :
  reachable st ->
  (nextEquipmentId st < 2 ^ 53)%Z ->
  In e (equipments st) ->
  exists before after,
    equipments st = before ++ e :: after
    /\ equipments (deleteEquipment (id e) st) = before ++ after
    /\ contextMenu (deleteEquipment (id e) st) = None.
Proof.
  intros Hr Hlt Hin. destruct (reachable_ids st Hr) as (_ & _ & Hids).
  destruct (Hids Hlt) as [_ Hnd].
  destruct (unique_split _ e Hnd Hin) as (l1 & l2 & Hl & H1 & H2).
  exists l1, l2. split; [exact Hl|]. split; [|reflexivity].
  cbn [deleteEquipment hideContextMenu setContextMenu setEquipments
       equipments].
  rewrite Hl, filter_app. cbn [filter].
  rewrite String.eqb_refl. cbn [negb].
  rewrite (filter_others e l1 H1), (filter_others e l2 H2). reflexivity.
Qed.

(** X18. In a state the editor can reach with its counter below 2^53,
    [editEquipment] with the id of an equipment on the canvas opens the
    dialog on that equipment; saving at once leaves the canvas as it was,
    and saving after a change of the name puts the renamed equipment in
    its place and touches no other. *)
Theorem edit_and_save_rewrite_that_equipment_only
  (st : Editor N) (e : Equipment N) (value : string) :
  reachable st ->
  (nextEquipmentId st < 2 ^ 53)%Z ->
  In e (equipments st) ->
  exists before after,
    equipments st = before ++ e :: after
    /\ editingEquipment (editEquipment (id e) st) = Some e
    /\ showEditModal (editEquipment (id e) st) = true
    /\ equipments (saveEditing (editEquipment (id e) st)) = equipments st
    /\ equipments (saveEditing (editName value (editEquipment (id e) st)))
       = before ++ withName value e :: after.
Proof.
  intros Hr Hlt Hin. destruct (reachable_ids st Hr) as (_ & _ & Hids).
  destruct (Hids Hlt) as [_ Hnd].
  destruct (unique_split _ e Hnd Hin) as (l1 & l2 & Hl & H1 & H2).
  exists l1, l2. split; [exact Hl|].
  assert (editEquipment (id e) st
          = hideContextMenu
              (setShowEditModal true
                 (setEditingEquipment (fun _ => Some e) st))) as ->.
  { unfold editEquipment. rewrite Hl, (find_others e l1 l2 H1). reflexivity. }
  split; [reflexivity|]. split; [reflexivity|].
  unfold saveEditing, editName.
  cbn [hideContextMenu setContextMenu setShowEditModal setEditingEquipment
       editingEquipment option_map saveEquipment setEquipments equipments].
  rewrite Hl. split.
  - rewrite map_app. cbn [map]. rewrite String.eqb_refl.
    rewrite (save_others e e l1 eq_refl H1), (save_others e e l2 eq_refl H2).
    reflexivity.
  - rewrite map_app. cbn [map].
    rewrite (save_others e (withName value e) l1 eq_refl H1),
            (save_others e (withName value e) l2 eq_refl H2).
    cbn [withName id]. rewrite String.eqb_refl. reflexivity.
Qed.

End FlowsheetFacts.

Section FlowsheetExamples.

Import Exact Flowsheet.

Lemma sketch_reachable : reachable (@sketch xnum _).
Proof.
  unfold sketch.
  repeat (eapply reachable_step; [|constructor]).
  constructor.
Qed.

(** The sketch: its counter is 4 and it holds the cleaners [eq_2] and
    [eq_3]. *)
Lemma equipment_ids_of_the_sketch :
  map id (equipments (@sketch xnum _)) = ["eq_2"; "eq_3"]
  /\ NoDup (map id (equipments (@sketch xnum _))).
Proof.
  split; [vm_compute; reflexivity|].
  assert (nextEquipmentId (@sketch xnum _) < 2 ^ 53)%Z as Hlt by reflexivity.
  exact (proj1 (equipment_ids_are_unique sketch sketch_reachable Hlt)).
Defined.

Lemma no_flow_line_in_the_sketch :
  flowLines (@sketch xnum _) = [].
Proof.
  exact (proj1 (no_flow_line_is_ever_drawn sketch sketch_reachable)).
Defined.

Lemma delete_from_the_sketch :
  exists e before after,
    id e = "eq_2"
    /\ equipments (@sketch xnum _) = before ++ e :: after
    /\ equipments (deleteEquipment "eq_2" sketch) = before ++ after
    /\ map id (equipments (deleteEquipment "eq_2" sketch)) = ["eq_3"].
Proof.
  destruct (equipments (@sketch xnum _)) as [|e rest] eqn:E;
    [vm_compute in E; discriminate|].
  assert (In e (equipments (@sketch xnum _))) as Hin
    by (rewrite E; left; reflexivity).
  assert (nextEquipmentId (@sketch xnum _) < 2 ^ 53)%Z as Hlt by reflexivity.
  assert (id e = "eq_2") as Hid
    by (vm_compute in E; injection E as <- _; reflexivity).
  destruct (delete_removes_that_equipment_only sketch e sketch_reachable
              Hlt Hin) as (l1 & l2 & Hl & Hdel & _).
  rewrite Hid in Hdel. rewrite E in Hl.
  exists e, l1, l2. split; [exact Hid|]. split; [exact Hl|].
  split; [exact Hdel|]. vm_compute. reflexivity.
Defined.

Lemma rename_in_the_sketch :
  exists e before after,
    id e = "eq_3"
    /\ equipments (@sketch xnum _) = before ++ e :: after
    /\ equipments (saveEditing (editEquipment "eq_3" sketch)) = equipments sketch
    /\ equipments (saveEditing (editName "Cleaner 2" (editEquipment "eq_3" sketch)))
       = before ++ withName "Cleaner 2" e :: after.
Proof.
  destruct (equipments (@sketch xnum _)) as [|e0 [|e rest]] eqn:E;
    [vm_compute in E; discriminate|vm_compute in E; discriminate|].
  assert (In e (equipments (@sketch xnum _))) as Hin
    by (rewrite E; right; left; reflexivity).
  assert (nextEquipmentId (@sketch xnum _) < 2 ^ 53)%Z as Hlt by reflexivity.
  assert (id e = "eq_3") as Hid
    by (vm_compute in E; injection E as _ <- _; reflexivity).
  destruct (edit_and_save_rewrite_that_equipment_only sketch e "Cleaner 2"
              sketch_reachable Hlt Hin) as (l1 & l2 & Hl & _ & _ & Hsame & Hnew).
  rewrite Hid in Hsame, Hnew. rewrite E in Hl, Hsame.
  exists e, l1, l2. split; [exact Hid|]. split; [exact Hl|].
  split; [exact Hsame|exact Hnew].
Defined.

End FlowsheetExamples.
